(** * o365graph: a shallow embedding of [service/o365graph.py]

    The service authenticates against an OAuth2 token endpoint, walks the
    pages of a Graph collection, resolves SharePoint file locations and
    streams the results as a JSON array.  This file embeds the Python code
    as Rocq functions over an explicit state (the single [Graph] object
    and the chronological list of calls made into the [requests] and
    [time] libraries) and proves the properties stated for it.

    Conventions.
    - Python values that come out of [resp.json()] are [pyval]s; a dict is
      an association list in insertion order, which is the order
      [dict.items()] iterates in.
    - The network is a parameter [net]: given the calls made so far and
      the call being made, it answers with a response or raises.
    - Calls to [logger] have no effect on control flow and are left out. *)

From Stdlib Require Import String Ascii List ZArith QArith Bool Lia DecimalString.
Import ListNotations.
Set Warnings "-register-all".
Local Open Scope string_scope.
Local Open Scope Z_scope.

(** ** Python values and exceptions *)

Inductive pyval : Type :=
| PNone
| PBool (b : bool)
| PInt (z : Z)
| PFloat (m e : Z)                      (* the decimal m * 10^e *)
| PStr (s : string)
| PList (l : list pyval)
| PDict (kvs : list (string * pyval)).

Inductive exn : Type :=
| RuntimeError (msg : string)
| TypeError
| AttributeError
| ValueError
| UnboundLocalError (var : string)
| AssertionError (msg : string)
| JSONDecodeError
| MissingSchema
| OverflowError
| RequestException (what : string).

(** The class name and the [args] tuple of an exception object. *)
Definition exn_class (e : exn) : string :=
  match e with
  | RuntimeError _ => "RuntimeError"
  | TypeError => "TypeError"
  | AttributeError => "AttributeError"
  | ValueError => "ValueError"
  | UnboundLocalError _ => "UnboundLocalError"
  | AssertionError _ => "AssertionError"
  | JSONDecodeError => "JSONDecodeError"
  | MissingSchema => "MissingSchema"
  | OverflowError => "OverflowError"
  | RequestException _ => "RequestException"
  end.


Inductive result (A : Type) : Type :=
| Ok (a : A)
| Raise (e : exn).
Arguments Ok {A} a.
Arguments Raise {A} e.

(** ** Strings *)

(** [s.split(sep)] for a one-character separator: never empty. *)
Fixpoint split (sep : ascii) (s : string) : list string :=
  match s with
  | EmptyString => [EmptyString]
  | String c s' =>
      if Ascii.eqb c sep then EmptyString :: split sep s'
      else match split sep s' with
           | [] => [String c EmptyString]
           | w :: ws => String c w :: ws
           end
  end.

(** [l[-1]] on a list of strings that is known not to be empty. *)
Definition last_item (l : list string) : string := last l EmptyString.

Fixpoint starts_with (p s : string) : bool :=
  match p, s with
  | EmptyString, _ => true
  | String a p', String b s' => Ascii.eqb a b && starts_with p' s'
  | String _ _, EmptyString => false
  end.

(** [needle in hay] on two strings. *)
Fixpoint str_in (needle hay : string) : bool :=
  starts_with needle hay ||
  match hay with
  | EmptyString => false
  | String _ hay' => str_in needle hay'
  end.

(** [sep.join(l)]. *)
Fixpoint join (sep : string) (l : list string) : string :=
  match l with
  | [] => EmptyString
  | [x] => x
  | x :: rest => x ++ sep ++ join sep rest
  end.

Definition string_of_Z (z : Z) : string :=
  DecimalString.NilZero.string_of_int (Z.to_int z).

(** ** Operations on Python values *)

(** [bool(v)]. *)
Definition truthy (v : pyval) : bool :=
  match v with
  | PNone => false
  | PBool b => b
  | PInt z => negb (z =? 0)
  | PFloat m _ => negb (m =? 0)
  | PStr s => negb (String.eqb s EmptyString)
  | PList l => match l with [] => false | _ => true end
  | PDict kvs => match kvs with [] => false | _ => true end
  end.

Fixpoint assoc (k : string) (kvs : list (string * pyval)) : option pyval :=
  match kvs with
  | [] => None
  | (k', v) :: rest => if String.eqb k k' then Some v else assoc k rest
  end.

(** [v.get(k)]: only a dict has the method; a missing key gives [None]. *)
Definition py_get (v : pyval) (k : string) : result pyval :=
  match v with
  | PDict kvs => Ok (match assoc k kvs with Some x => x | None => PNone end)
  | _ => Raise AttributeError
  end.

(** [s + v] where [s] is a string. *)
Definition str_add (s : string) (v : pyval) : result string :=
  match v with
  | PStr t => Ok (s ++ t)
  | _ => Raise TypeError
  end.

Definition is_str (s : string) (v : pyval) : bool :=
  match v with
  | PStr t => String.eqb s t
  | _ => false
  end.

(** [s in v] for a string [s]: substring of a string, element of a list,
    key of a dict; the other values are not containers. *)
Definition py_in (s : string) (v : pyval) : result bool :=
  match v with
  | PStr t => Ok (str_in s t)
  | PList l => Ok (existsb (is_str s) l)
  | PDict kvs => Ok (existsb (fun kv => String.eqb s (fst kv)) kvs)
  | _ => Raise TypeError
  end.

(** [for x in v]: the items a [for] loop visits. *)
Definition py_iter (v : pyval) : result (list pyval) :=
  match v with
  | PList l => Ok l
  | PDict kvs => Ok (map (fun kv => PStr (fst kv)) kvs)
  | PStr s => Ok (map (fun c => PStr (String c EmptyString)) (list_ascii_of_string s))
  | _ => Raise TypeError
  end.

(** ** HTTP *)

Definition args := list (string * string).
Definition headers := list (string * string).

Record response : Type := mkResponse {
  status_code : Z;
  content : string;                 (* the raw body; [resp.text] decodes it *)
  json_body : option pyval          (* [None]: [resp.json()] raises *)
}.

(** [resp.ok]: [raise_for_status] raises exactly for 400..599. *)
Definition ok (r : response) : bool :=
  negb ((400 <=? status_code r) && (status_code r <? 600)).

Definition resp_json (r : response) : result pyval :=
  match json_body r with
  | Some v => Ok v
  | None => Raise JSONDecodeError
  end.

(** [requests.Request(method, url, headers=..., params=...)].  The object
    keeps the [headers] dict it was given; [None] becomes an empty dict. *)
Record Request : Type := mkRequest {
  r_method : string;
  r_url : pyval;
  r_headers : option headers;
  r_params : option args
}.

Record PreparedRequest : Type := mkPrepared {
  p_method : string;
  p_url : pyval;
  p_headers : headers;
  p_params : option args
}.

(** [req.prepare()], as far as the fields go: it copies the fields of
    [req] as they are now.  While it prepares, the library also checks the
    url and raises [MissingSchema] or [InvalidURL] for one it cannot use;
    that check is the library's and is answered with the call, see
    [session_send]. *)
Definition prepare (req : Request) : PreparedRequest :=
  {| p_method := r_method req;
     p_url := r_url req;
     p_headers := match r_headers req with Some h => h | None => [] end;
     p_params := r_params req |}.

(** The calls the service makes into [requests] and [time]. *)
Inductive event : Type :=
| EvPost (url : string) (data : args)       (* requests.post(url, data) *)
| EvSend (p : PreparedRequest)              (* session.send(p) *)
| EvGet (url : pyval)                       (* requests.get(url) *)
| EvSleep (secs : Q).                       (* time.sleep(secs): seconds *)

(** ** Configuration *)

Record AppConfig : Type := mkConfig {
  client_id : string;
  client_secret : string;
  grant_type : string;
  resource : string;
  entities_path : string;
  next_page : string;
  token_url : string;
  log_level : option string;
  base_url : option string;
  sleep : option string;
  port : option string;
  sharepoint_url : option string
}.

(** ** State and the monad of the service *)

Record Graph : Type := mkGraph {
  session : bool;                    (* [False]: [self.session is None] *)
  auth_header : option headers;
  graph_url : string
}.

Record state : Type := mkState {
  self : Graph;
  trace : list event
}.

Definition M (A : Type) : Type := state -> result A * state.

Definition ret {A} (a : A) : M A := fun st => (Ok a, st).
Definition raise {A} (e : exn) : M A := fun st => (Raise e, st).
Definition bind {A B} (c : M A) (k : A -> M B) : M B :=
  fun st => match c st with
            | (Ok a, st') => k a st'
            | (Raise e, st') => (Raise e, st')
            end.
Definition lift {A} (r : result A) : M A := fun st => (r, st).

Notation "x <- c ;; k" := (bind c (fun x => k))
  (at level 61, c at next level, right associativity).
Notation "c ;;; k" := (bind c (fun _ => k))
  (at level 61, right associativity).

Definition get_self : M Graph := fun st => (Ok (self st), st).
Definition set_self (g : Graph) : M unit :=
  fun st => (Ok tt, {| self := g; trace := trace st |}).
Definition log_call (ev : event) (st : state) : state :=
  {| self := self st; trace := trace st ++ [ev] |}.

(** ** [dotdictify] *)

(** Modelled from the spec: the [dotdictify] module the service imports is
    not among the sources.  The spec has the response body parsed "as a
    nested record" in which a dotted path such as [a.b.c] navigates
    "field-by-field", giving an absent result when a segment is missing. *)
Definition dotdictify (v : pyval) : result pyval :=
  match v with
  | PDict _ => Ok v
  | _ => Raise TypeError
  end.

Fixpoint dd_walk (segs : list string) (v : pyval) : pyval :=
  match segs with
  | [] => v
  | k :: rest =>
      match v with
      | PDict kvs =>
          match assoc k kvs with
          | Some x => dd_walk rest x
          | None => PNone
          end
      | _ => PNone
      end
  end.

(** [res.get(path)]. *)
Definition dd_get (res : pyval) (path : string) : pyval :=
  dd_walk (split "." path) res.

Fixpoint assoc_set (k : string) (v : pyval) (kvs : list (string * pyval))
  : list (string * pyval) :=
  match kvs with
  | [] => [(k, v)]
  | (k', v') :: rest =>
      if String.eqb k k' then (k, v) :: rest else (k', v') :: assoc_set k v rest
  end.

(** [res[k] = v] for a key without dots. *)
Definition dd_set (res : pyval) (k : string) (v : pyval) : pyval :=
  match res with
  | PDict kvs => PDict (assoc_set k v kvs)
  | _ => res
  end.

(** ** Generators *)

(** A finished run of a Python generator: the items it yields, ended by a
    normal return or by an exception. *)
Inductive gen (A : Type) : Type :=
| GYield (a : A) (rest : gen A)
| GReturn
| GRaise (e : exn).
Arguments GYield {A} a rest.
Arguments GReturn {A}.
Arguments GRaise {A} e.

(** The run that yields the items of [l] and then goes on as [g]. *)
Fixpoint gen_app {A} (l : list A) (g : gen A) : gen A :=
  match l with
  | [] => g
  | a :: l' => GYield a (gen_app l' g)
  end.

Fixpoint gen_items {A} (g : gen A) : list A :=
  match g with
  | GYield a rest => a :: gen_items rest
  | _ => []
  end.

Fixpoint gen_end {A} (g : gen A) : option exn :=
  match g with
  | GYield _ rest => gen_end rest
  | GReturn => None
  | GRaise e => Some e
  end.

(** ** [set_group_id] *)

(** The test [k.split(":")[-1] == "id"] of [set_group_id]. *)
Definition id_key (k : string) : bool :=
  String.eqb (last_item (split ":" k)) "id".

(** The [for k, v in entity.items()] loop; [groupid] is [None] while the
    local is unbound. *)
Fixpoint set_group_id_loop (items : list (string * pyval)) (groupid : option pyval)
  : option pyval :=
  match items with
  | [] => groupid
  | (k, v) :: rest =>
      if id_key k
      then set_group_id_loop rest (Some v)
      else set_group_id_loop rest groupid
  end.

(** [groupid] is bound only by the loop; [return groupid] on an unbound
    local raises. *)
Definition set_group_id (entity : pyval) : result pyval :=
  match entity with
  | PDict kvs =>
      match set_group_id_loop kvs None with
      | Some v => Ok v
      | None => Raise (UnboundLocalError "groupid")
      end
  | _ => Raise AttributeError
  end.

(** ** [stream_json] *)

Section Stream.
(** [json.dumps] on a value that came from JSON. *)
Variable dumps : pyval -> string.

Fixpoint stream_json_loop (first : bool) (entities : gen pyval) : gen string :=
  match entities with
  | GYield row rest =>
      if negb first
      then GYield "," (GYield (dumps row) (stream_json_loop first rest))
      else GYield (dumps row) (stream_json_loop false rest)
  | GReturn => GYield "]" GReturn
  | GRaise e => GRaise e
  end.

Definition stream_json (entities : gen pyval) : gen string :=
  GYield "[" (stream_json_loop true entities).

(** The text a run of chunks adds up to. *)
Definition emitted (g : gen string) : string :=
  fold_right append EmptyString (gen_items g).

(** The chunks for [rs] once a first record has been written. *)
Definition more_chunks (rs : list pyval) : list string :=
  flat_map (fun r => [","; dumps r]) rs.

Definition chunks (rs : list pyval) : list string :=
  match rs with
  | [] => []
  | r :: rs' => dumps r :: more_chunks rs'
  end.

End Stream.

(** The reading "the value of the first key that matches". *)
Fixpoint first_id_value (items : list (string * pyval)) : option pyval :=
  match items with
  | [] => None
  | (k, v) :: rest => if id_key k then Some v else first_id_value rest
  end.


(** ** The [Graph] class *)

Section Service.
(** The process-wide configuration, read once at start-up. *)
Variable config : AppConfig.
(** The network: the answer to a call, given the calls made before it. *)
Variable net : list event -> event -> result response.
(** The builtin [float] on the text of a setting that denotes a finite
    number, or the exception it raises. *)
Variable py_float : string -> result Q.

(** [Graph.__init__]. *)
Definition Graph_init : Graph :=
  {| session := false;
     auth_header := None;
     graph_url :=
       match base_url config with
       | Some u => if String.eqb u EmptyString
                   then "https://graph.microsoft.com/v1.0/" else u
       | None => "https://graph.microsoft.com/v1.0/"
       end |}.

(** A call into [requests]: it is appended to the trace and answered by
    the network. *)
Definition call (ev : event) : M response :=
  fun st => (net (trace st) ev, log_call ev st).

Definition requests_post (url : string) (data : args) : M response :=
  call (EvPost url data).

(** [self.session.send(req.prepare())].  The event stands for the
    statement being run; the answer of the network is a response, which
    means the request was prepared and sent, or the exception the statement
    raises, be it the transport failing or the library refusing the url
    while it prepares, in which case nothing went out. *)
Definition session_send (p : PreparedRequest) : M response :=
  call (EvSend p).

(** [requests.get(url)].  For [url = None] the library fails while it
    prepares the request ([str(None)] has no scheme) and nothing is sent. *)
Definition requests_get (url : pyval) : M response :=
  match url with
  | PNone => fun st => (Raise MissingSchema, log_call (EvGet PNone) st)
  | _ => call (EvGet url)
  end.

(** The seconds [time.sleep] can turn into its 64-bit count of
    nanoseconds, to the precision of a float. *)
Definition in_time_range (secs : Q) : bool :=
  Qle_bool (- (9223372036854775808 # 1000000000)) secs
  && Qle_bool secs (9223372036854775808 # 1000000000).

(** [time.sleep(secs)]: the conversion to nanoseconds comes first and
    raises [OverflowError] out of range; a negative length is refused
    next. *)
Definition time_sleep (secs : Q) : M unit :=
  fun st => if negb (in_time_range secs)
            then (Raise OverflowError, st)
            else if Qle_bool 0 secs
                 then (Ok tt, log_call (EvSleep secs) st)
                 else (Raise ValueError, st).

Definition payload : args :=
  [("client_id", client_id config);
   ("client_secret", client_secret config);
   ("grant_type", grant_type config);
   ("resource", resource config)].

(** [Graph.get_token].  The bare [raise] is not inside an [except] block:
    there is no active exception to re-raise, which Python reports as a
    [RuntimeError]. *)
Definition get_token : M unit :=
  resp <- requests_post (token_url config) payload ;;
  if negb (ok resp)
  then raise (RuntimeError "No active exception to reraise")
  else
    body <- lift (resp_json resp) ;;
    access_token <- lift (py_get body "access_token") ;;
    bearer <- lift (str_add "Bearer " access_token) ;;
    g <- get_self ;;
    set_self {| session := session g;
                auth_header := Some [("Authorization", bearer)];
                graph_url := graph_url g |}.

(** [Graph.request].  [ensure_session] is its opening
    [if not self.session] block.  [req] is built once, from the header
    dict that is current at that moment; [get_token] binds
    [self.auth_header] to a new dict and leaves the one [req] holds as it
    was. *)
Definition ensure_session : M unit :=
  g <- get_self ;;
  if negb (session g)
  then set_self {| session := true;
                   auth_header := auth_header g;
                   graph_url := graph_url g |} ;;;
       get_token
  else ret tt.

Definition request (method : string) (url : pyval) (params : option args)
  : M response :=
  ensure_session ;;;
  g <- get_self ;;
  let req := mkRequest method url (auth_header g) params in
  resp <- session_send (prepare req) ;;
  if status_code resp =? 401
  then get_token ;;; session_send (prepare req)
  else ret resp.

(** *** Paged entities *)

(** [if hasattr(config, "sleep"): sleep(float(config.sleep))]. *)
Definition throttle : M unit :=
  match sleep config with
  | Some s => secs <- lift (py_float s) ;; time_sleep secs
  | None => ret tt
  end.

(** One turn of the [while] loop of [__get_all_paged_entities]: the
    entities the turn yields and the value [next_page] ends with. *)
Definition fetch_page (args : args) (next_page_url : pyval)
  : M (list pyval * pyval) :=
  throttle ;;;
  has_token <- lift (py_in "$skiptoken" next_page_url) ;;
  req <- (if negb has_token
          then request "GET" next_page_url (Some args)
          else request "GET" next_page_url None) ;;
  if negb (ok req)
  then raise (AssertionError
                ("Unexpected response status code: "
                 ++ string_of_Z (status_code req)
                 ++ " with response text " ++ content req))
  else
    body <- lift (resp_json req) ;;
    res <- lift (dotdictify body) ;;
    entities <- lift (py_iter (dd_get res (entities_path config))) ;;
    ret (entities, dd_get res (next_page config)).

(** What a turn of the loop makes of the response to its request. *)
Definition read_page (req : response) : result (list pyval * pyval) :=
  if negb (ok req)
  then Raise (AssertionError
                ("Unexpected response status code: "
                 ++ string_of_Z (status_code req)
                 ++ " with response text " ++ content req))
  else
    match resp_json req with
    | Raise e => Raise e
    | Ok body =>
        match dotdictify body with
        | Raise e => Raise e
        | Ok res =>
            match py_iter (dd_get res (entities_path config)) with
            | Raise e => Raise e
            | Ok entities => Ok (entities, dd_get res (next_page config))
            end
        end
    end.

(** The [while next_page is not None] loop.  The loop has no bound of its
    own, so the model counts turns: [None] means [fuel] turns were not
    enough to reach the end of the run. *)
Fixpoint paged_loop (fuel : nat) (args : args) (next_page_url : pyval)
  (st : state) : option (gen pyval * state) :=
  match next_page_url with
  | PNone => Some (GReturn, st)
  | _ =>
      match fuel with
      | O => None
      | S fuel' =>
          match fetch_page args next_page_url st with
          | (Raise e, st1) => Some (GRaise e, st1)
          | (Ok (entities, nxt), st1) =>
              match paged_loop fuel' args nxt st1 with
              | Some (g, st2) => Some (gen_app entities g, st2)
              | None => None
              end
          end
      end
  end.

Definition __get_all_paged_entities (fuel : nat) (path : string) (args : args)
  (st : state) : option (gen pyval * state) :=
  let url := graph_url (self st) ++ path in
  paged_loop fuel args (PStr url) st.

Definition get_paged_entities := __get_all_paged_entities.

(** *** Site urls *)

(** The body of the [for] loop of [__get_all_siteurls]: [None] when the
    turn yields nothing. *)
Definition siteurl_of (entity : pyval) : M (option pyval) :=
  g <- get_self ;;
  gid <- lift (set_group_id entity) ;;
  prefix <- lift (str_add (graph_url g ++ "groups/") gid) ;;
  req <- request "GET" (PStr (prefix ++ "/sites/root")) None ;;
  if negb (ok req)
  then ret None
  else
    body <- lift (resp_json req) ;;
    res <- lift (dotdictify body) ;;
    gid' <- lift (set_group_id entity) ;;
    ret (Some (dd_set res "_id" gid')).

Fixpoint __get_all_siteurls (posted_entities : list pyval) (st : state)
  : gen pyval * state :=
  match posted_entities with
  | [] => (GReturn, st)
  | entity :: rest =>
      match siteurl_of entity st with
      | (Raise e, st1) => (GRaise e, st1)
      | (Ok None, st1) => __get_all_siteurls rest st1
      | (Ok (Some res), st1) =>
          let (g, st2) := __get_all_siteurls rest st1 in
          (GYield res g, st2)
      end
  end.

Definition get_siteurls := __get_all_siteurls.

(** *** The resolution chain *)

Definition _get_sharepoint_site_id (site : string) : M pyval :=
  g <- get_self ;;
  let url := graph_url g ++ "sites/" ++ site in
  resp <- request "GET" (PStr url) None ;;
  if negb (ok resp)
  then ret PNone
  else body <- lift (resp_json resp) ;; lift (py_get body "id").

Definition _get_site_documents_drive_url (site : string) : M pyval :=
  site_id <- _get_sharepoint_site_id site ;;
  if truthy site_id
  then
    g <- get_self ;;
    prefix <- lift (str_add (graph_url g ++ "/sites/") site_id) ;;
    let url := prefix ++ "/drive" in
    resp <- request "GET" (PStr url) None ;;
    if negb (ok resp)
    then ret PNone
    else
      body <- lift (resp_json resp) ;;
      drive_id <- lift (py_get body "id") ;;
      drive <- lift (str_add (url ++ "s/") drive_id) ;;
      ret (PStr (drive ++ "/root:/"))
  else ret PNone.

Definition _get_file_download_url (path site : string) : M pyval :=
  drive_url <- _get_site_documents_drive_url site ;;
  if truthy drive_url
  then
    url <- lift (match drive_url with
                 | PStr d => Ok (d ++ path)
                 | _ => Raise TypeError
                 end) ;;
    resp <- request "GET" (PStr url) None ;;
    if negb (ok resp)
    then ret PNone
    else body <- lift (resp_json resp) ;;
         lift (py_get body "@microsoft.graph.downloadUrl")
  else ret PNone.

(** [Graph.get_file]: the bytes of the file, or [None]. *)
Definition get_file (path site : string) : M (option string) :=
  download_url <- _get_file_download_url path site ;;
  resp <- requests_get download_url ;;
  if negb (ok resp)
  then ret None
  else ret (Some (content resp)).

(** *** What a run shows *)

(** The events a call of [Graph.request] for [(method, url, params)] may
    leave in the trace: sends of that very request, and token requests. *)
Definition sends_as (method : string) (url : pyval) (params : option args)
  (ev : event) : Prop :=
  match ev with
  | EvSend p => p_method p = method /\ p_url p = url /\ p_params p = params
  | EvPost u d => u = token_url config /\ d = payload
  | _ => False
  end.

(** The guard of the page request, read off a request that was sent: the
    caller's arguments are there exactly when the url has no
    ["$skiptoken"]. *)
Definition params_rule (args : args) (p : PreparedRequest) : Prop :=
  match py_in "$skiptoken" (p_url p) with
  | Ok true => p_params p = None
  | Ok false => p_params p = Some args
  | Raise _ => False
  end.

(** The page at [url] is fetched with success from state [st]: the pause,
    if one is configured, is taken, the request with the arguments the
    guard gives it returns a response that is [ok], whose body is a record
    holding the iterable [entities] and the cursor [cursor] ([PNone] when
    the field is null or missing). *)
Definition served (args : args) (url : string) (st : state)
  (entities : list pyval) (cursor : pyval) (st' : state) : Prop :=
  exists st0 r kvs,
    throttle st = (Ok tt, st0)
    /\ request "GET" (PStr url)
         (if str_in "$skiptoken" url then None else Some args) st0 = (Ok r, st')
    /\ ok r = true
    /\ json_body r = Some (PDict kvs)
    /\ py_iter (dd_get (PDict kvs) (entities_path config)) = Ok entities
    /\ dd_get (PDict kvs) (next_page config) = cursor.

(** A chain of pages, each given with its url and its entities: every page
    but the last carries the url of the next one as its cursor, the last
    one has none. *)
Inductive page_chain (args : args)
  : state -> list (string * list pyval) -> state -> Prop :=
| chain_last url entities st st' :
    served args url st entities PNone st' ->
    page_chain args st [(url, entities)] st'
| chain_next url entities nxt ents' rest st st1 st' :
    served args url st entities (PStr nxt) st1 ->
    page_chain args st1 ((nxt, ents') :: rest) st' ->
    page_chain args st ((url, entities) :: (nxt, ents') :: rest) st'.

End Service.

(** The urls of the requests sent, in order. *)
Definition sent_urls (evs : list event) : list pyval :=
  flat_map (fun ev => match ev with EvSend p => [p_url p] | _ => [] end) evs.

(** The time spent in [time.sleep], in milliseconds. *)
Definition suspended_ms (evs : list event) : Q :=
  fold_right Qplus 0%Q
    (map (fun ev => match ev with
                    | EvSleep secs => (1000 * secs)%Q
                    | _ => 0%Q
                    end) evs).

(** ** Sample worlds *)

Definition ex_config : AppConfig :=
  {| client_id := "app"; client_secret := "secret";
     grant_type := "client_credentials";
     resource := "https://graph.microsoft.com";
     entities_path := "value"; next_page := "paging.next";
     token_url := "https://login.example/token";
     log_level := None; base_url := Some "https://graph.example/";
     sleep := None; port := None; sharepoint_url := None |}.

Definition ex_config_sleep : AppConfig :=
  {| client_id := "app"; client_secret := "secret";
     grant_type := "client_credentials";
     resource := "https://graph.microsoft.com";
     entities_path := "value"; next_page := "paging.next";
     token_url := "https://login.example/token";
     log_level := None; base_url := Some "https://graph.example/";
     sleep := Some "500"; port := None; sharepoint_url := None |}.

Definition ex_float (s : string) : result Q :=
  if String.eqb s "500" then Ok (500 # 1) else Raise ValueError.

(** A network that answers the [n]-th call of a run with the [n]-th entry
    of a script. *)
Definition scripted (script : list (result response))
  : list event -> event -> result response :=
  fun history _ =>
    nth (length history) script (Raise (RequestException "no answer left")).

Definition json_response (v : pyval) : response :=
  {| status_code := 200; content := "(json)"; json_body := Some v |}.

Definition ex_unauthorized : response :=
  {| status_code := 401; content := "token expired"; json_body := None |}.

Definition ex_denied : response :=
  {| status_code := 400; content := "invalid_client"; json_body := None |}.

Definition ex_not_found : response :=
  {| status_code := 404; content := "itemNotFound"; json_body := None |}.

Definition ex_token (tok : string) : response :=
  json_response (PDict [("token_type", PStr "Bearer"); ("access_token", PStr tok)]).

(** A [Graph] that has a session and holds the credential ["old"]. *)
Definition ex_ready : state :=
  {| self := {| session := true;
                auth_header := Some [("Authorization", "Bearer old")];
                graph_url := "https://graph.example/" |};
     trace := [] |}.

(** The [Graph] as the module creates it. *)
Definition ex_fresh : state :=
  {| self := Graph_init ex_config; trace := [] |}.

Definition ex_args : args := [("$top", "2")].

Definition ex_user (name : string) : pyval :=
  PDict [("id", PStr name)].

Definition ex_page (entities : list pyval) (cursor : pyval) : response :=
  json_response (PDict [("value", PList entities);
                        ("paging", PDict [("next", cursor)])]).

Definition ex_last_page (entities : list pyval) : response :=
  json_response (PDict [("value", PList entities)]).

(** ** Start-up: reading the environment *)

Definition required_env_vars : list string :=
  ["client_id"; "client_secret"; "grant_type"; "resource"; "entities_path";
   "next_page"; "token_url"].

Definition optional_env_vars : list string :=
  ["log_level"; "base_url"; "sleep"; "port"; "sharepoint_url"].

(** The attributes set on the [AppConfig] object; [setattr] may store
    [None]. *)
Definition attrs : Type := list (string * option string).

Fixpoint setattr (o : attrs) (name : string) (value : option string) : attrs :=
  match o with
  | [] => [(name, value)]
  | (n, v) :: rest =>
      if String.eqb name n then (name, value) :: rest
      else (n, v) :: setattr rest name value
  end.

(** [None]: the object has no such attribute. *)
Fixpoint attr (o : attrs) (name : string) : option (option string) :=
  match o with
  | [] => None
  | (n, v) :: rest => if String.eqb name n then Some v else attr rest name
  end.

(** [not value] on what [os.getenv] returns. *)
Definition unset (value : option string) : bool :=
  match value with
  | None => true
  | Some s => String.eqb s EmptyString
  end.

(** The loop over [required_env_vars]. *)
Fixpoint load_required (getenv : string -> option string) (vars : list string)
  (o : attrs) (missing_env_vars : list string) : attrs * list string :=
  match vars with
  | [] => (o, missing_env_vars)
  | env_var :: rest =>
      let value := getenv env_var in
      let missing' := if unset value
                      then (missing_env_vars ++ [env_var])%list
                      else missing_env_vars in
      load_required getenv rest (setattr o env_var value) missing'
  end.

(** The loop over [optional_env_vars]. *)
Fixpoint load_optional (getenv : string -> option string) (vars : list string)
  (o : attrs) : attrs :=
  match vars with
  | [] => o
  | env_var :: rest =>
      let value := getenv env_var in
      load_optional getenv rest
        (if unset value then o else setattr o env_var value)
  end.

(** [config.name] for a required setting of a process that has started,
    and [getattr(config, name, None)] for an optional one. *)
Definition required_attr (o : attrs) (name : string) : string :=
  match attr o name with
  | Some (Some s) => s
  | _ => EmptyString
  end.

Definition optional_attr (o : attrs) (name : string) : option string :=
  match attr o name with
  | Some v => v
  | None => None
  end.

Definition config_of (o : attrs) : AppConfig :=
  {| client_id := required_attr o "client_id";
     client_secret := required_attr o "client_secret";
     grant_type := required_attr o "grant_type";
     resource := required_attr o "resource";
     entities_path := required_attr o "entities_path";
     next_page := required_attr o "next_page";
     token_url := required_attr o "token_url";
     log_level := optional_attr o "log_level";
     base_url := optional_attr o "base_url";
     sleep := optional_attr o "sleep";
     port := optional_attr o "port";
     sharepoint_url := optional_attr o "sharepoint_url" |}.

(** How the module body ends: [sys.exit(1)], with the value
    [missing_env_vars] has when [logger.error] is called with it, or the
    service with its configuration.  The set-up of the logger between the
    two loops and the exit is left out: it does not raise and has no part
    in that outcome; what it decides is whether the error record is
    emitted, which the level [log_level] asks for can prevent. *)
Inductive startup_result : Type :=
| Exit (code : Z) (missing : list string)
| Started (config : AppConfig).

Definition startup (getenv : string -> option string) : startup_result :=
  let (o, missing_env_vars) := load_required getenv required_env_vars [] [] in
  let o := load_optional getenv optional_env_vars o in
  if negb (length missing_env_vars =? 0)%nat
  then Exit 1 missing_env_vars
  else Started (config_of o).

(** ** The routes *)

(** What a view function hands back to Flask: a body with a status, or
    [abort(status)]. *)
Inductive reply : Type :=
| Reply (status : Z) (body : string)
| Abort (status : Z).

Module Routes.
Section Views.
Variable config : AppConfig.
Variable net : list event -> event -> result response.
Variable py_float : string -> result Q.
Variable dumps : pyval -> string.
(** [urlparse(url).netloc]. *)
Variable netloc : string -> result string.

(** [/entities/<path:path>]: [posted] is [request.get_json()], read when
    the method is POST.  The body of the generator only runs once the
    response is streamed, after the opening bracket. *)
Definition get (fuel : nat) (method : string) (path : string) (posted : pyval)
  (args : args) (st : state) : option (gen string * state) :=
  let path := if String.eqb method "POST" then posted else PStr path in
  match path with
  | PStr p =>
      match get_paged_entities config net py_float fuel p args st with
      | Some (entities, st') => Some (stream_json dumps entities, st')
      | None => None
      end
  | _ => Some (stream_json dumps (GRaise TypeError), st)
  end.

(** [/siteurl]. *)
Definition getsite (posted : pyval) (st : state) : gen string * state :=
  match py_iter posted with
  | Raise e => (stream_json dumps (GRaise e), st)
  | Ok posted_entities =>
      let (entities, st') := get_siteurls config net posted_entities st in
      (stream_json dumps entities, st')
  end.

(** [/file/<path:path>]. *)
Definition get_file (path : string) : M reply :=
  match sharepoint_url config with
  | None =>
      ret (Reply 500
             "Missing environment variable 'sharepoint_url' to use this url path")
  | Some sharepoint_url =>
      if String.eqb sharepoint_url EmptyString
      then ret (Reply 500
                  "Missing environment variable 'sharepoint_url' to use this url path")
      else
        host <- lift (netloc sharepoint_url) ;;
        let url_parts := split "/" path in
        if (length url_parts <? 3)%nat
        then ret (Abort 400)
        else
          let site := host ++ ":/" ++ join "/" (firstn 2 url_parts) in
          let path := join "/" (skipn 2 url_parts) in
          file_resp <- get_file config net path site ;;
          match file_resp with
          | Some bytes =>
              if negb (String.eqb bytes EmptyString)
              then ret (Reply 200 bytes)
              else ret (Abort 500)
          | None => ret (Abort 500)
          end
  end.

End Views.
End Routes.

(** ** More of what a run shows *)

Section Walks.
Variable config : AppConfig.
Variable net : list event -> event -> result response.
Variable py_float : string -> result Q.

(** The pages served from [url] on, up to a page whose cursor is [nxt],
    the url the walk would turn to next. *)
Inductive page_prefix (args : args)
  : state -> string -> list (string * list pyval) -> string -> state -> Prop :=
| prefix_nil url st : page_prefix args st url [] url st
| prefix_cons url entities mid rest nxt st st1 st' :
    served config net py_float args url st entities (PStr mid) st1 ->
    page_prefix args st1 mid rest nxt st' ->
    page_prefix args st url ((url, entities) :: rest) nxt st'.

End Walks.

Fixpoint count_char (c : ascii) (s : string) : nat :=
  match s with
  | EmptyString => O
  | String x s' => ((if Ascii.eqb x c then 1 else 0) + count_char c s')%nat
  end.


Definition count_posts (evs : list event) : nat :=
  length (filter (fun ev => match ev with EvPost _ _ => true | _ => false end) evs).

Definition count_sends (evs : list event) : nat :=
  length (filter (fun ev => match ev with EvSend _ => true | _ => false end) evs).

(** ** More sample worlds *)

Definition ex_getenv (name : string) : option string :=
  if String.eqb name "client_id" then Some "app"
  else if String.eqb name "client_secret" then Some EmptyString
  else if String.eqb name "grant_type" then Some "client_credentials"
  else if String.eqb name "resource" then Some "https://graph.microsoft.com"
  else if String.eqb name "entities_path" then Some "value"
  else if String.eqb name "next_page" then Some "paging.next"
  else if String.eqb name "sleep" then Some EmptyString
  else if String.eqb name "base_url" then Some "https://graph.example/"
  else None.

Definition ex_getenv_full (name : string) : option string :=
  if String.eqb name "client_secret" then Some "secret"
  else if String.eqb name "token_url" then Some "https://login.example/token"
  else ex_getenv name.

Definition ex_config_sharepoint : AppConfig :=
  {| client_id := "app"; client_secret := "secret";
     grant_type := "client_credentials";
     resource := "https://graph.microsoft.com";
     entities_path := "value"; next_page := "paging.next";
     token_url := "https://login.example/token";
     log_level := None; base_url := Some "https://graph.example/";
     sleep := None; port := None;
     sharepoint_url := Some "https://contoso.sharepoint.com" |}.

Definition ex_netloc (url : string) : result string :=
  if String.eqb url "https://contoso.sharepoint.com"
  then Ok "contoso.sharepoint.com" else Raise ValueError.

Definition ex_dumps (v : pyval) : string :=
  match v with
  | PDict ((_, PStr s) :: _) => "<" ++ s ++ ">"
  | _ => "<>"
  end.


(** A network that grants the token ["t"] and serves a collection of two
    pages: the page with the cursor to every url without ["$skiptoken"],
    the last page to the others. *)
Definition ex_two_pages : list event -> event -> result response :=
  fun _ ev =>
    match ev with
    | EvPost _ _ => Ok (ex_token "t")
    | EvSend p =>
        match py_in "$skiptoken" (p_url p) with
        | Ok true => Ok (ex_last_page [ex_user "c"])
        | _ => Ok (ex_page [ex_user "a"; ex_user "b"]
                     (PStr "https://graph.example/users?$skiptoken=X"))
        end
    | _ => Raise (RequestException "unexpected call")
    end.

Definition ex_pages : list (string * list pyval) :=
  [("https://graph.example/users", [ex_user "a"; ex_user "b"]);
   ("https://graph.example/users?$skiptoken=X", [ex_user "c"])].

Definition final_of (run : option (gen pyval * state)) : state :=
  match run with
  | Some (_, st) => st
  | None => ex_ready
  end.

(** Where the walk of the two pages ends, without and with a delay. *)
Definition ex_walk_end : state :=
  final_of (__get_all_paged_entities ex_config ex_two_pages ex_float 2
              "users" ex_args ex_ready).


(** The answers of a resolution chain that succeeds, but for the last. *)
Definition ex_chain_answers (download : response) : list (result response) :=
  [Ok (json_response (PDict [("id", PStr "site-1")]));
   Ok (json_response (PDict [("id", PStr "drive-9")]));
   Ok (json_response
         (PDict [("name", PStr "q1.csv");
                 ("@microsoft.graph.downloadUrl", PStr "https://dl.example/f")]));
   Ok download].

Definition ex_file : response :=
  {| status_code := 200; content := "col1,col2"; json_body := None |}.

(** * Properties *)

(** ** Strings *)

Example split_namespaced : split ":" "odata:group:id" = ["odata"; "group"; "id"].
Proof. reflexivity. Qed.

Example split_plain : split ":" "id" = ["id"].
Proof. reflexivity. Qed.

Example split_trailing : split ":" "id:" = ["id"; EmptyString].
Proof. reflexivity. Qed.

Example id_key_samples :
  id_key "id" = true /\ id_key "group:id" = true
  /\ id_key "groupid" = false /\ id_key "id:name" = false.
Proof. repeat split. Qed.

Example str_in_samples :
  str_in "$skiptoken" "https://graph.example/users?$skiptoken=X" = true
  /\ str_in "$skiptoken" "https://graph.example/users?$skip=10" = false
  /\ str_in EmptyString EmptyString = true.
Proof. repeat split. Qed.

Example dd_get_samples :
  let body := PDict [("value", PList []);
                     ("paging", PDict [("next", PStr "u")])] in
  dd_get body "paging.next" = PStr "u"
  /\ dd_get body "paging.prev" = PNone
  /\ dd_get body "value.next" = PNone.
Proof. repeat split. Qed.

Lemma str_app_assoc (a b c : string) : (a ++ b) ++ c = a ++ (b ++ c).
Proof. induction a as [|x a IH]; simpl; [reflexivity | now rewrite IH]. Qed.

Lemma str_app_nil_r (a : string) : a ++ EmptyString = a.
Proof. induction a as [|x a IH]; simpl; [reflexivity | now rewrite IH]. Qed.

(** ** The streaming encoder *)

Section StreamFacts.
Variable dumps : pyval -> string.

Lemma stream_json_loop_more (rs : list pyval) (tail : gen pyval) :
  stream_json_loop dumps false (gen_app rs tail)
  = gen_app (more_chunks dumps rs) (stream_json_loop dumps false tail).
Proof.
  induction rs as [|r rs IH]; simpl; [reflexivity|].
  now rewrite IH.
Qed.

Lemma gen_app_app {A} (l1 l2 : list A) (g : gen A) :
  gen_app (l1 ++ l2)%list g = gen_app l1 (gen_app l2 g).
Proof. induction l1; simpl; congruence. Qed.

Lemma stream_json_returns (rs : list pyval) :
  stream_json dumps (gen_app rs GReturn)
  = gen_app ("[" :: chunks dumps rs ++ ["]"])%list GReturn.
Proof.
  unfold stream_json. destruct rs as [|r rs]; simpl; [reflexivity|].
  now rewrite stream_json_loop_more, gen_app_app.
Qed.

Lemma stream_json_raises (rs : list pyval) (e : exn) :
  stream_json dumps (gen_app rs (GRaise e))
  = gen_app ("[" :: chunks dumps rs) (GRaise e).
Proof.
  unfold stream_json. destruct rs as [|r rs]; simpl; [reflexivity|].
  now rewrite stream_json_loop_more.
Qed.

Lemma gen_items_app {A} (l : list A) (g : gen A) :
  gen_items (gen_app l g) = (l ++ gen_items g)%list.
Proof. induction l; simpl; congruence. Qed.

Lemma gen_end_app {A} (l : list A) (g : gen A) :
  gen_end (gen_app l g) = gen_end g.
Proof. induction l; simpl; congruence. Qed.

Lemma text_app (l1 l2 : list string) :
  fold_right append EmptyString (l1 ++ l2)%list
  = fold_right append EmptyString l1 ++ fold_right append EmptyString l2.
Proof.
  induction l1 as [|x l1 IH]; simpl; [reflexivity|].
  now rewrite IH, str_app_assoc.
Qed.

Lemma text_more_chunks (rs : list pyval) :
  fold_right append EmptyString (more_chunks dumps rs)
  = match rs with
    | [] => EmptyString
    | _ => "," ++ join "," (map dumps rs)
    end.
Proof.
  induction rs as [|r rs IH]; [reflexivity|].
  change (more_chunks dumps (r :: rs)) with ("," :: dumps r :: more_chunks dumps rs).
  cbn [fold_right]. rewrite IH. destruct rs as [|r' rs]; simpl.
  - now rewrite str_app_nil_r.
  - reflexivity.
Qed.

Lemma text_chunks (rs : list pyval) :
  fold_right append EmptyString (chunks dumps rs) = join "," (map dumps rs).
Proof.
  destruct rs as [|r rs]; [reflexivity|].
  unfold chunks. cbn [fold_right]. rewrite text_more_chunks.
  destruct rs; simpl; [now rewrite str_app_nil_r | reflexivity].
Qed.
End StreamFacts.

(** C7.  For every finite sequence of records the encoder emits ["["], each
    record serialized with a comma chunk before every record but the first,
    and ["]"]: no record gives [[]], three records give [[r1,r2,r3]].  When
    the input raises after the records [rs], the output is the same opening
    without the closing bracket, and ends with that exception. *)
Theorem stream_json_spec (dumps : pyval -> string) :
  (forall rs,
      stream_json dumps (gen_app rs GReturn)
      = gen_app ("[" :: chunks dumps rs ++ ["]"])%list GReturn
      /\ emitted (stream_json dumps (gen_app rs GReturn))
         = "[" ++ join "," (map dumps rs) ++ "]")
  /\ emitted (stream_json dumps GReturn) = "[]"
  /\ (forall r1 r2 r3,
         emitted (stream_json dumps (gen_app [r1; r2; r3] GReturn))
         = "[" ++ dumps r1 ++ "," ++ dumps r2 ++ "," ++ dumps r3 ++ "]")
  /\ (forall rs e,
         stream_json dumps (gen_app rs (GRaise e))
         = gen_app ("[" :: chunks dumps rs) (GRaise e)
         /\ emitted (stream_json dumps (gen_app rs (GRaise e)))
            = "[" ++ join "," (map dumps rs)
         /\ gen_end (stream_json dumps (gen_app rs (GRaise e))) = Some e).
Proof.
  assert (Hret : forall rs,
             emitted (stream_json dumps (gen_app rs GReturn))
             = "[" ++ join "," (map dumps rs) ++ "]").
  { intros rs. unfold emitted.
    rewrite stream_json_returns, gen_items_app. simpl gen_items.
    rewrite app_nil_r. cbn [fold_right].
    now rewrite text_app, text_chunks. }
  split; [|split; [|split]].
  - intros rs. split; [apply stream_json_returns | apply Hret].
  - apply (Hret []).
  - intros r1 r2 r3. rewrite (Hret [r1; r2; r3]). cbn [map join].
    now rewrite !str_app_assoc.
  - intros rs e. rewrite stream_json_raises. split; [reflexivity|]. split.
    + unfold emitted. rewrite gen_items_app. simpl gen_items.
      rewrite app_nil_r. cbn [fold_right]. now rewrite text_chunks.
    + now rewrite gen_end_app.
Qed.

(** ** Identifier extraction *)

Lemma set_group_id_loop_app (a b : list (string * pyval)) (acc : option pyval) :
  set_group_id_loop (a ++ b)%list acc
  = set_group_id_loop b (set_group_id_loop a acc).
Proof.
  revert acc. induction a as [|[k v] a IH]; intros acc; simpl; [reflexivity|].
  destruct (id_key k); apply IH.
Qed.

Lemma set_group_id_loop_skip (kvs : list (string * pyval)) (acc : option pyval) :
  Forall (fun kv => id_key (fst kv) = false) kvs ->
  set_group_id_loop kvs acc = acc.
Proof.
  induction 1 as [|[k v] kvs Hk _ IH]; simpl; [reflexivity|].
  simpl in Hk. now rewrite Hk.
Qed.

Lemma siteurls_abort config net (before : list pyval) :
  forall entity after st e g st1,
    set_group_id entity = Raise e ->
    __get_all_siteurls config net before st = (g, st1) ->
    gen_end g = None ->
    __get_all_siteurls config net (before ++ entity :: after)%list st
    = (gen_app (gen_items g) (GRaise e), st1).
Proof.
  induction before as [|b before IH]; intros entity after st e g st1 He Hrun Hend.
  - simpl in Hrun. injection Hrun as <- <-. simpl.
    unfold siteurl_of, bind, get_self, lift. now rewrite He.
  - simpl in Hrun |- *.
    destruct (siteurl_of config net b st) as [[[res|]|e'] st'].
    + destruct (__get_all_siteurls config net before st') as [g' st2] eqn:Hrest.
      injection Hrun as <- <-. simpl in Hend |- *.
      now rewrite (IH entity after st' e g' st2 He Hrest Hend).
    + now apply IH.
    + injection Hrun as <- <-. discriminate Hend.
Qed.

(** C8, as the code has it.  The identifier is the value of the LAST key,
    in the record's key order, whose final [":"]-separated segment is
    ["id"]; a record with no such key makes the helper raise
    [UnboundLocalError], and the site-url generator then stops at that
    record: what the records before it gave has been yielded, the records
    after it are not looked at. *)
Theorem set_group_id_last_match :
  (forall pre k v post,
      id_key k = true ->
      Forall (fun kv => id_key (fst kv) = false) post ->
      set_group_id (PDict (pre ++ (k, v) :: post)%list) = Ok v)
  /\ (forall kvs,
         Forall (fun kv => id_key (fst kv) = false) kvs ->
         set_group_id (PDict kvs) = Raise (UnboundLocalError "groupid"))
  /\ (forall config net before entity after st g st1 e,
         set_group_id entity = Raise e ->
         __get_all_siteurls config net before st = (g, st1) ->
         gen_end g = None ->
         __get_all_siteurls config net (before ++ entity :: after)%list st
         = (gen_app (gen_items g) (GRaise e), st1)).
Proof.
  split; [|split].
  - intros pre k v post Hk Hpost. unfold set_group_id.
    rewrite set_group_id_loop_app. simpl. rewrite Hk.
    now rewrite set_group_id_loop_skip.
  - intros kvs Hkvs. unfold set_group_id.
    now rewrite set_group_id_loop_skip.
  - intros. now apply siteurls_abort.
Qed.

(** C8 as stated fails: with two matching keys the first one's value is
    not what the helper returns. *)
Lemma set_group_id_not_first :
  ~ (forall kvs v,
        first_id_value kvs = Some v -> set_group_id (PDict kvs) = Ok v).
Proof.
  intros H.
  specialize (H [("a:id", PStr "1"); ("b:id", PStr "2")] (PStr "1") eq_refl).
  discriminate H.
Qed.

(** ** The token manager *)

Ltac run_M :=
  unfold bind, lift, ret, raise, get_self, set_self, requests_post,
    session_send, call in *; simpl in *.

Section TokenFacts.
Variable config : AppConfig.
Variable net : list event -> event -> result response.

Let token_call : event := EvPost (token_url config) (payload config).

(** Whatever its outcome, an acquisition is one call to the token
    endpoint. *)
Lemma get_token_trace (st : state) :
  trace (snd (get_token config net st)) = (trace st ++ [token_call])%list.
Proof.
  unfold get_token. run_M.
  destruct (net (trace st) _) as [resp|e]; [|reflexivity].
  destruct (ok resp); simpl; [|reflexivity].
  destruct (resp_json resp) as [body|e]; [|reflexivity].
  destruct (py_get body "access_token") as [tok|e]; [|reflexivity].
  destruct (str_add "Bearer " tok) as [b|e]; reflexivity.
Qed.

(** A failed acquisition leaves the [Graph] object as it was. *)
Lemma get_token_raise_self (st st' : state) (e : exn) :
  get_token config net st = (Raise e, st') -> st' = log_call token_call st.
Proof.
  unfold get_token, token_call. run_M.
  destruct (net (trace st) _) as [resp|e0]; [|congruence].
  destruct (ok resp); simpl; [|congruence].
  destruct (resp_json resp) as [body|e0]; [|congruence].
  destruct (py_get body "access_token") as [tok|e0]; [|congruence].
  destruct (str_add "Bearer " tok) as [b|e0]; [discriminate|congruence].
Qed.

(** A successful one replaces the header and nothing else. *)
Lemma get_token_ok_self (st st' : state) :
  get_token config net st = (Ok tt, st') ->
  trace st' = (trace st ++ [token_call])%list
  /\ session (self st') = session (self st)
  /\ graph_url (self st') = graph_url (self st)
  /\ exists tok,
      auth_header (self st') = Some [("Authorization", "Bearer " ++ tok)].
Proof.
  unfold get_token. run_M.
  destruct (net (trace st) _) as [resp|e0]; [|discriminate].
  destruct (ok resp); simpl; [|discriminate].
  destruct (resp_json resp) as [body|e0]; [|discriminate].
  destruct (py_get body "access_token") as [tok|e0]; [|discriminate].
  destruct tok; simpl; try discriminate.
  intros H. injection H as <-. simpl. repeat split. now exists s.
Qed.

Lemma ensure_session_trace (st : state) :
  exists evs,
    trace (snd (ensure_session config net st)) = (trace st ++ evs)%list
    /\ Forall (fun ev => ev = token_call) evs.
Proof.
  unfold ensure_session. unfold bind at 1, get_self.
  destruct (session (self st)); simpl.
  - exists []. now rewrite app_nil_r.
  - exists [token_call]. split; [|now constructor].
    unfold bind, set_self.
    match goal with
    | |- context [get_token config net ?s] =>
        pose proof (get_token_trace s) as Ht;
        destruct (get_token config net s) as [[[]|e] s']
    end; exact Ht.
Qed.

(** [Graph.request], one step at a time. *)
Lemma request_unfold (method : string) (url : pyval) (params : option args)
  (st : state) :
  request config net method url params st
  = match ensure_session config net st with
    | (Raise e, st0) => (Raise e, st0)
    | (Ok _, st0) =>
        let p := prepare (mkRequest method url (auth_header (self st0)) params) in
        match net (trace st0) (EvSend p) with
        | Raise e => (Raise e, log_call (EvSend p) st0)
        | Ok r1 =>
            if status_code r1 =? 401
            then match get_token config net (log_call (EvSend p) st0) with
                 | (Raise e, st2) => (Raise e, st2)
                 | (Ok _, st2) =>
                     (net (trace st2) (EvSend p), log_call (EvSend p) st2)
                 end
            else (Ok r1, log_call (EvSend p) st0)
        end
    end.
Proof.
  unfold request. unfold bind at 1.
  destruct (ensure_session config net st) as [[[]|e] st0]; [|reflexivity].
  run_M. destruct (net (trace st0) _) as [r1|e]; [|reflexivity].
  destruct (status_code r1 =? 401); [|reflexivity].
  destruct (get_token config net _) as [[[]|e] st2]; reflexivity.
Qed.

(** When the refresh after a 401 fails, its exception leaves
    [Graph.request] and the request is not sent again. *)
Lemma request_refresh_raises (method : string) (url : pyval)
  (params : option args) (st st0 st2 : state) (r1 : response) (e : exn) :
  ensure_session config net st = (Ok tt, st0) ->
  let p := prepare (mkRequest method url (auth_header (self st0)) params) in
  net (trace st0) (EvSend p) = Ok r1 ->
  status_code r1 = 401 ->
  get_token config net (log_call (EvSend p) st0) = (Raise e, st2) ->
  request config net method url params st
  = (Raise e, log_call token_call (log_call (EvSend p) st0)).
Proof.
  intros Hens p Hr1 H401 Htok. subst p.
  rewrite request_unfold, Hens. cbv zeta.
  rewrite Hr1, H401. simpl. rewrite Htok.
  now rewrite (get_token_raise_self _ _ _ Htok).
Qed.

(** The trace of a call of [Graph.request]. *)
Lemma request_events (method : string) (url : pyval) (params : option args)
  (st : state) :
  exists evs,
    trace (snd (request config net method url params st))
    = (trace st ++ evs)%list
    /\ Forall (sends_as config method url params) evs
    /\ (forall r, fst (request config net method url params st) = Ok r ->
                  exists p, In (EvSend p) evs).
Proof.
  rewrite request_unfold.
  destruct (ensure_session_trace st) as (evs0 & Ht0 & Hev0).
  assert (Hpost : Forall (sends_as config method url params) evs0).
  { eapply Forall_impl; [|exact Hev0]. intros ev ->. now split. }
  destruct (ensure_session config net st) as [[[]|e] st0]; simpl in Ht0.
  2:{ exists evs0. repeat split; [assumption..|discriminate]. }
  cbv zeta.
  set (p := prepare (mkRequest method url (auth_header (self st0)) params)).
  assert (Hp : sends_as config method url params (EvSend p)) by now repeat split.
  destruct (net (trace st0) (EvSend p)) as [r1|e].
  2:{ exists (evs0 ++ [EvSend p])%list. simpl. rewrite Ht0, <- app_assoc.
      repeat split; [|discriminate].
      apply Forall_app; split; [assumption|now constructor]. }
  destruct (status_code r1 =? 401).
  2:{ exists (evs0 ++ [EvSend p])%list. simpl. rewrite Ht0, <- app_assoc.
      repeat split.
      - apply Forall_app; split; [assumption|now constructor].
      - intros _ _. exists p. apply in_or_app. right. now left. }
  pose proof (get_token_trace (log_call (EvSend p) st0)) as Ht2.
  destruct (get_token config net (log_call (EvSend p) st0)) as [[[]|e] st2];
    simpl in Ht2.
  - exists (evs0 ++ [EvSend p; token_call; EvSend p])%list. simpl.
    rewrite Ht2, Ht0, <- !app_assoc. repeat split.
    + apply Forall_app; split; [assumption|].
      repeat constructor; assumption.
    + intros _ _. exists p. apply in_or_app. right. now left.
  - exists (evs0 ++ [EvSend p; token_call])%list. simpl.
    rewrite Ht2, Ht0, <- !app_assoc. repeat split; [|discriminate].
    apply Forall_app; split; [assumption|].
    repeat constructor; assumption.
Qed.

End TokenFacts.




(** C10.  When the token endpoint answers with a success status and a JSON
    record without [access_token], [get_token] raises the [TypeError] of
    ["Bearer " + None]; no header is stored and the [Graph] object is what
    it was before the attempt. *)
Theorem get_token_without_access_token :
  forall config net st resp kvs,
    net (trace st) (EvPost (token_url config) (payload config)) = Ok resp ->
    ok resp = true ->
    json_body resp = Some (PDict kvs) ->
    assoc "access_token" kvs = None ->
    get_token config net st
    = (Raise TypeError,
       log_call (EvPost (token_url config) (payload config)) st)
    /\ self (snd (get_token config net st)) = self st.
Proof.
  intros config net st resp kvs Hnet Hok Hbody Hkey.
  assert (H : get_token config net st
              = (Raise TypeError,
                 log_call (EvPost (token_url config) (payload config)) st)).
  { unfold get_token, resp_json. run_M.
    rewrite Hnet, Hok. simpl. rewrite Hbody. simpl. now rewrite Hkey. }
  split; [exact H | now rewrite H].
Qed.

Lemma get_token_without_access_token_witness :
  get_token ex_config
    (scripted [Ok (json_response (PDict [("error", PStr "none")]))]) ex_ready
  = (Raise TypeError,
     log_call (EvPost (token_url ex_config) (payload ex_config)) ex_ready)
  /\ self (snd (get_token ex_config
                  (scripted [Ok (json_response (PDict [("error", PStr "none")]))])
                  ex_ready))
     = self ex_ready.
Proof.
  apply (get_token_without_access_token ex_config _ ex_ready
           (json_response (PDict [("error", PStr "none")]))
           [("error", PStr "none")]); reflexivity.
Defined.

(** ** The request executor *)

(** C1, as the code has it.  When the first response to a request is a
    401, the executor asks the token endpoint exactly once.  If that
    acquisition succeeds, the same prepared request is sent exactly once
    more, and what that second send gives, a 401 included, is the result of
    [Graph.request]: nothing is acquired or sent after it.  If the
    acquisition fails, its exception is the result and the request is not
    sent again. *)
Theorem request_401_one_refresh_one_retry :
  forall config net method url params st st0 r1,
    ensure_session config net st = (Ok tt, st0) ->
    let p := prepare (mkRequest method url (auth_header (self st0)) params) in
    let acquire := EvPost (token_url config) (payload config) in
    net (trace st0) (EvSend p) = Ok r1 ->
    status_code r1 = 401 ->
    match fst (get_token config net (log_call (EvSend p) st0)) with
    | Ok _ =>
        fst (request config net method url params st)
        = net (trace st0 ++ [EvSend p; acquire])%list (EvSend p)
        /\ trace (snd (request config net method url params st))
           = (trace st0 ++ [EvSend p; acquire; EvSend p])%list
    | Raise e =>
        fst (request config net method url params st) = Raise e
        /\ trace (snd (request config net method url params st))
           = (trace st0 ++ [EvSend p; acquire])%list
    end.
Proof.
  intros config net method url params st st0 r1 Hens p acquire Hr1 H401.
  subst p acquire. rewrite request_unfold, Hens. cbv zeta.
  rewrite Hr1, H401. simpl.
  match goal with
  | |- context [get_token config net ?s] =>
      pose proof (get_token_trace config net s) as Ht;
      destruct (get_token config net s) as [[[]|e] st2]; simpl in Ht |- *
  end.
  - rewrite Ht, <- !app_assoc. split; reflexivity.
  - rewrite Ht, <- !app_assoc. split; reflexivity.
Qed.

Lemma request_401_one_refresh_one_retry_witness :
  let granted := scripted [Ok ex_unauthorized; Ok (ex_token "new");
                           Ok ex_unauthorized] in
  let rejected := scripted [Ok ex_unauthorized; Ok ex_denied] in
  let p := {| p_method := "GET"; p_url := PStr "https://graph.example/users";
              p_headers := [("Authorization", "Bearer old")];
              p_params := None |} in
  let acquire := EvPost (token_url ex_config) (payload ex_config) in
  (fst (request ex_config granted "GET" (PStr "https://graph.example/users")
          None ex_ready)
   = Ok ex_unauthorized
   /\ trace (snd (request ex_config granted "GET"
                    (PStr "https://graph.example/users") None ex_ready))
      = [EvSend p; acquire; EvSend p])
  /\ (fst (request ex_config rejected "GET" (PStr "https://graph.example/users")
             None ex_ready)
      = Raise (RuntimeError "No active exception to reraise")
      /\ trace (snd (request ex_config rejected "GET"
                       (PStr "https://graph.example/users") None ex_ready))
         = [EvSend p; acquire]).
Proof.
  intros granted rejected p acquire. split.
  - exact (request_401_one_refresh_one_retry ex_config granted "GET"
             (PStr "https://graph.example/users") None ex_ready ex_ready
             ex_unauthorized eq_refl eq_refl eq_refl).
  - exact (request_401_one_refresh_one_retry ex_config rejected "GET"
             (PStr "https://graph.example/users") None ex_ready ex_ready
             ex_unauthorized eq_refl eq_refl eq_refl).
Defined.

(** C1 as stated fails: after a first 401 whose token refresh is rejected,
    the request is not sent again and no response is returned. *)
Lemma request_401_refresh_rejected_no_retry :
  let net := scripted [Ok ex_unauthorized; Ok ex_denied] in
  let p := {| p_method := "GET"; p_url := PStr "https://graph.example/users";
              p_headers := [("Authorization", "Bearer old")];
              p_params := None |} in
  let run := request ex_config net "GET" (PStr "https://graph.example/users")
               None ex_ready in
  net [] (EvSend p) = Ok ex_unauthorized
  /\ fst run = Raise (RuntimeError "No active exception to reraise")
  /\ trace (snd run) = [EvSend p; EvPost (token_url ex_config) (payload ex_config)]
  /\ count_sends (trace (snd run)) = 1%nat.
Proof. repeat split. Qed.

(** The first request of a fresh [Graph] acquires a token before it sends. *)
Example request_first_use :
  let net := scripted [Ok (ex_token "t0"); Ok (ex_last_page [])] in
  let run := request ex_config net "GET" (PStr "https://graph.example/users")
               None ex_fresh in
  fst run = Ok (ex_last_page [])
  /\ trace (snd run)
     = [EvPost (token_url ex_config) (payload ex_config);
        EvSend {| p_method := "GET"; p_url := PStr "https://graph.example/users";
                  p_headers := [("Authorization", "Bearer t0")];
                  p_params := None |}]
  /\ session (self (snd run)) = true.
Proof. repeat split. Qed.

(** C2, at a failing input.  The [Graph] holds the credential ["old"]; the
    first response is a 401 and the token endpoint grants ["new"].  The
    request sent after the refresh still carries ["Bearer old"], while the
    credential stored at that moment is ["Bearer new"]. *)
Theorem retry_carries_stale_credential :
  let net := scripted [Ok ex_unauthorized; Ok (ex_token "new");
                       Ok (ex_last_page [])] in
  let run := request ex_config net "GET" (PStr "https://graph.example/users")
               None ex_ready in
  let stale := {| p_method := "GET"; p_url := PStr "https://graph.example/users";
                  p_headers := [("Authorization", "Bearer old")];
                  p_params := None |} in
  fst run = Ok (ex_last_page [])
  /\ trace (snd run)
     = [EvSend stale; EvPost (token_url ex_config) (payload ex_config);
        EvSend stale]
  /\ auth_header (self (snd run)) = Some [("Authorization", "Bearer new")].
Proof. repeat split. Qed.

(** ** The paged entity fetcher *)

Lemma sent_urls_app (a b : list event) :
  sent_urls (a ++ b)%list = (sent_urls a ++ sent_urls b)%list.
Proof. unfold sent_urls. now rewrite flat_map_app. Qed.

Lemma sent_urls_in (p : PreparedRequest) (evs : list event) :
  In (EvSend p) evs -> In (p_url p) (sent_urls evs).
Proof.
  intros H. unfold sent_urls. apply in_flat_map.
  exists (EvSend p). split; [assumption | now left].
Qed.

Lemma sent_urls_sends_as config method url params (evs : list event) :
  Forall (sends_as config method url params) evs ->
  Forall (eq url) (sent_urls evs).
Proof.
  induction 1 as [|ev evs Hev _ IH]; [constructor|].
  destruct ev; simpl in *; try assumption; try contradiction.
  constructor; [now destruct Hev as (_ & -> & _) | assumption].
Qed.

Section PagedFacts.
Variable config : AppConfig.
Variable net : list event -> event -> result response.
Variable py_float : string -> result Q.

(** The pause only sleeps. *)
Lemma throttle_events (st : state) :
  exists evs,
    trace (snd (throttle config py_float st)) = (trace st ++ evs)%list
    /\ sent_urls evs = [].
Proof.
  unfold throttle. destruct (sleep config) as [s|].
  - unfold bind, lift, time_sleep. destruct (py_float s) as [secs|e].
    + destruct (negb (in_time_range secs));
        [exists []; now rewrite app_nil_r|].
      destruct (Qle_bool 0 secs).
      * exists [EvSleep secs]. now split.
      * exists []. now rewrite app_nil_r.
    + exists []. now rewrite app_nil_r.
  - exists []. now rewrite app_nil_r.
Qed.


(** With the setting, its value is handed to [time.sleep] as it is: a
    number of seconds. *)
Lemma throttle_set (st : state) (s : string) (secs : Q) :
  sleep config = Some s ->
  py_float s = Ok secs ->
  in_time_range secs = true ->
  Qle_bool 0 secs = true ->
  throttle config py_float st = (Ok tt, log_call (EvSleep secs) st).
Proof.
  intros Hs Hf Hrange Hpos. unfold throttle, bind, lift, time_sleep.
  now rewrite Hs, Hf, Hrange, Hpos.
Qed.

(** One turn of the loop, one step at a time. *)
Lemma fetch_page_unfold (args : args) (url : pyval) (st : state) :
  fetch_page config net py_float args url st
  = match throttle config py_float st with
    | (Raise e, st0) => (Raise e, st0)
    | (Ok _, st0) =>
        match py_in "$skiptoken" url with
        | Raise e => (Raise e, st0)
        | Ok has =>
            match request config net "GET" url
                    (if negb has then Some args else None) st0 with
            | (Raise e, st1) => (Raise e, st1)
            | (Ok req, st1) => (read_page config req, st1)
            end
        end
    end.
Proof.
  unfold fetch_page. unfold bind at 1.
  destruct (throttle config py_float st) as [[[]|e] st0]; [|reflexivity].
  unfold bind at 1, lift at 1.
  destruct (py_in "$skiptoken" url) as [has|e]; [|reflexivity].
  unfold bind at 1.
  assert (Hreq : (if negb has
                  then request config net "GET" url (Some args)
                  else request config net "GET" url None)
                 = request config net "GET" url
                     (if negb has then Some args else None))
    by now destruct has.
  rewrite Hreq.
  destruct (request config net "GET" url _ st0) as [[req|e] st1]; [|reflexivity].
  unfold read_page. destruct (negb (ok req)); [reflexivity|].
  run_M. destruct (resp_json req) as [body|e]; [|reflexivity].
  destruct (dotdictify body) as [res|e]; [|reflexivity].
  destruct (py_iter _) as [ents|e]; reflexivity.
Qed.

(** The requests of one turn go to the url of the turn and obey the guard;
    a turn that succeeds has sent one. *)
Lemma fetch_page_events (args : args) (url : pyval) (st : state) :
  exists evs,
    trace (snd (fetch_page config net py_float args url st))
    = (trace st ++ evs)%list
    /\ Forall (eq url) (sent_urls evs)
    /\ (forall p, In (EvSend p) evs -> params_rule args p)
    /\ (forall x, fst (fetch_page config net py_float args url st) = Ok x ->
                  sent_urls evs <> []).
Proof.
  rewrite fetch_page_unfold.
  destruct (throttle_events st) as (evs0 & Ht0 & Hs0).
  assert (Hno : forall p, ~ In (EvSend p) evs0).
  { intros p Hin. apply sent_urls_in in Hin. now rewrite Hs0 in Hin. }
  destruct (throttle config py_float st) as [[[]|e] st0]; simpl in Ht0.
  2:{ exists evs0. rewrite Hs0. repeat split; [assumption|constructor| |discriminate].
      intros p Hin. now apply Hno in Hin. }
  destruct (py_in "$skiptoken" url) as [has|e] eqn:Hin.
  2:{ exists evs0. rewrite Hs0. repeat split; [assumption|constructor| |discriminate].
      intros p Hp. now apply Hno in Hp. }
  destruct (request_events config net "GET" url
              (if negb has then Some args else None) st0)
    as (evs1 & Ht1 & Hev1 & Hsent).
  assert (Hrule : forall p, In (EvSend p) (evs0 ++ evs1)%list -> params_rule args p).
  { intros p Hp. apply in_app_or in Hp. destruct Hp as [Hp|Hp].
    - now apply Hno in Hp.
    - rewrite Forall_forall in Hev1. apply Hev1 in Hp.
      destruct Hp as (_ & Hu & Hk). unfold params_rule.
      rewrite Hu, Hin, Hk. now destruct has. }
  assert (Hurls : Forall (eq url) (sent_urls (evs0 ++ evs1)%list)).
  { rewrite sent_urls_app, Hs0. simpl.
    eapply sent_urls_sends_as; eassumption. }
  destruct (request config net "GET" url _ st0) as [[req|e] st1];
    simpl in Ht1, Hsent |- *.
  - exists (evs0 ++ evs1)%list. rewrite Ht1, Ht0, <- app_assoc.
    repeat split; [assumption..|].
    intros _ _ Hnil. destruct (Hsent req eq_refl) as (p & Hp).
    apply sent_urls_in in Hp. rewrite sent_urls_app, Hs0 in Hnil.
    simpl in Hnil. now rewrite Hnil in Hp.
  - exists (evs0 ++ evs1)%list. rewrite Ht1, Ht0, <- app_assoc.
    repeat split; [assumption..|discriminate].
Qed.

(** The guard holds for every request of a whole walk. *)
Lemma paged_loop_params (fuel : nat) (args : args) :
  forall url st g st',
    paged_loop config net py_float fuel args url st = Some (g, st') ->
    exists evs,
      trace st' = (trace st ++ evs)%list
      /\ (forall p, In (EvSend p) evs -> params_rule args p).
Proof.
  induction fuel as [|fuel IH]; intros url st g st' Hrun.
  - exists []. destruct url; simpl in Hrun; try discriminate.
    injection Hrun as _ <-. now rewrite app_nil_r.
  - assert (Hturn :
        url = PNone /\ st' = st
        \/ match fetch_page config net py_float args url st with
           | (Raise e, st1) => st' = st1
           | (Ok (_, nxt), st1) =>
               exists g', paged_loop config net py_float fuel args nxt st1
                          = Some (g', st')
           end).
    { destruct url; cbn [paged_loop] in Hrun;
        try (right;
             destruct (fetch_page config net py_float args _ st)
               as [[[ents nxt]|err] st1];
             [ destruct (paged_loop config net py_float fuel args nxt st1)
                 as [[g' st2]|]; [|discriminate];
               injection Hrun as _ <-; now exists g'
             | now injection Hrun as _ <- ]).
      left. injection Hrun as _ <-. now split. }
    destruct Hturn as [[_ ->]|Hturn].
    { exists []. now rewrite app_nil_r. }
    destruct (fetch_page_events args url st) as (evs1 & Ht1 & _ & Hrule1 & _).
    destruct (fetch_page config net py_float args url st)
      as [[[ents nxt]|e] st1]; simpl in Ht1.
    + destruct Hturn as (g' & Hrest).
      destruct (IH nxt st1 g' st' Hrest) as (evs2 & Ht2 & Hrule2).
      exists (evs1 ++ evs2)%list. rewrite Ht2, Ht1, <- app_assoc.
      split; [reflexivity|]. intros p Hp.
      apply in_app_or in Hp. destruct Hp; auto.
    + subst st'. exists evs1. now split.
Qed.

(** A page that is served is what one turn of the loop reads. *)
Lemma served_fetch_page (args : args) (url : string) (st st' : state)
  (entities : list pyval) (cursor : pyval) :
  served config net py_float args url st entities cursor st' ->
  fetch_page config net py_float args (PStr url) st
  = (Ok (entities, cursor), st').
Proof.
  intros (st0 & r & kvs & Hth & Hreq & Hok & Hbody & Hents & Hcur).
  rewrite fetch_page_unfold, Hth. simpl py_in. cbv iota.
  assert (Hk : (if negb (str_in "$skiptoken" url) then Some args else None)
               = (if str_in "$skiptoken" url then None else Some args))
    by now destruct (str_in "$skiptoken" url).
  rewrite Hk, Hreq. unfold read_page, resp_json.
  rewrite Hok, Hbody. simpl. now rewrite Hents, Hcur.
Qed.

Lemma served_sends (args : args) (url : string) (st st' : state)
  (entities : list pyval) (cursor : pyval) :
  served config net py_float args url st entities cursor st' ->
  exists seg,
    trace st' = (trace st ++ seg)%list
    /\ sent_urls seg <> []
    /\ (forall p, In (EvSend p) seg ->
                  p_method p = "GET"
                  /\ p_url p = PStr url
                  /\ p_params p
                     = (if str_in "$skiptoken" url then None else Some args)).
Proof.
  intros (st0 & r & kvs & Hth & Hreq & _).
  destruct (throttle_events st) as (evs0 & Ht0 & Hs0).
  rewrite Hth in Ht0. simpl in Ht0.
  destruct (request_events config net "GET" (PStr url)
              (if str_in "$skiptoken" url then None else Some args) st0)
    as (evs1 & Ht1 & Hev1 & Hsent).
  rewrite Hreq in Ht1, Hsent. simpl in Ht1, Hsent.
  exists (evs0 ++ evs1)%list. split; [now rewrite Ht1, Ht0, <- app_assoc|].
  split.
  - destruct (Hsent r eq_refl) as (p & Hp). apply sent_urls_in in Hp.
    rewrite sent_urls_app, Hs0. simpl. intros Hnil. now rewrite Hnil in Hp.
  - intros p Hp. apply in_app_or in Hp. destruct Hp as [Hp|Hp].
    + apply sent_urls_in in Hp. now rewrite Hs0 in Hp.
    + rewrite Forall_forall in Hev1. exact (Hev1 _ Hp).
Qed.

(** Walking a chain of served pages yields their entities, page after
    page, and then returns. *)
Lemma chain_walk (args : args) (pages : list (string * list pyval))
  (st st' : state) :
  page_chain config net py_float args st pages st' ->
  forall fuel, (length pages <= fuel)%nat ->
    exists url ents rest,
      pages = (url, ents) :: rest
      /\ paged_loop config net py_float fuel args (PStr url) st
         = Some (gen_app (concat (map snd pages)) GReturn, st').
Proof.
  induction 1 as [url ents st st' Hserved
                 |url ents nxt ents' rest st st1 st' Hserved _ IH];
    intros fuel Hfuel.
  - exists url, ents, []. split; [reflexivity|].
    destruct fuel as [|fuel]; [simpl in Hfuel; lia|].
    cbn [paged_loop]. rewrite (served_fetch_page _ _ _ _ _ _ Hserved).
    simpl. rewrite app_nil_r. now destruct fuel.
  - exists url, ents, ((nxt, ents') :: rest). split; [reflexivity|].
    destruct fuel as [|fuel]; [simpl in Hfuel; lia|].
    cbn [paged_loop]. rewrite (served_fetch_page _ _ _ _ _ _ Hserved).
    destruct (IH fuel) as (u & e & r & Heq & Hrun); [simpl in *; lia|].
    injection Heq as <- <- <-. rewrite Hrun.
    cbn [map concat snd]. now rewrite (gen_app_app ents).
Qed.

(** The requests of the walk, page by page: each page costs at least one
    request, and all of them are GET requests to the url of that page,
    with the arguments the guard of the loop gives them. *)
Lemma chain_sends (args : args) (pages : list (string * list pyval))
  (st st' : state) :
  page_chain config net py_float args st pages st' ->
  exists segs,
    trace st' = (trace st ++ concat segs)%list
    /\ Forall2 (fun seg pg =>
                  sent_urls seg <> []
                  /\ (forall p, In (EvSend p) seg ->
                                p_method p = "GET"
                                /\ p_url p = PStr (fst pg)
                                /\ p_params p
                                   = (if str_in "$skiptoken" (fst pg)
                                      then None else Some args)))
         segs pages.
Proof.
  induction 1 as [url ents st st' Hserved
                 |url ents nxt ents' rest st st1 st' Hserved _ IH].
  - destruct (served_sends _ _ _ _ _ _ Hserved) as (seg & Ht & Hne & Hall).
    exists [seg]. simpl. rewrite app_nil_r. split; [assumption|].
    constructor; [now split | constructor].
  - destruct (served_sends _ _ _ _ _ _ Hserved) as (seg & Ht & Hne & Hall).
    destruct IH as (segs & Ht' & Hsegs).
    exists (seg :: segs). simpl. rewrite Ht', Ht, <- app_assoc.
    split; [reflexivity|]. constructor; [now split | assumption].
Qed.

End PagedFacts.

(** C3, as the code has it.  Let [pages] be served one after the other,
    the first at the url of the collection, each next one at the cursor its
    predecessor carries, the last with a null or missing cursor.  With fuel
    for that many turns the fetcher yields the entities of the pages,
    concatenated in that order, and then returns.  Its requests go, page by
    page and in that order, to the urls of the chain: a url that contains
    ["$skiptoken"] is asked for as it is, one that does not is asked for
    with the caller's query arguments.  The state the fetcher ends in is
    the state after the last page: nothing is fetched once the cursor is
    gone. *)
Theorem paged_entities_concat :
  forall config net py_float args path pages st st',
    page_chain config net py_float args st pages st' ->
    hd_error (map fst pages) = Some (graph_url (self st) ++ path) ->
    (forall fuel, (length pages <= fuel)%nat ->
        exists g,
          __get_all_paged_entities config net py_float fuel path args st
          = Some (g, st')
          /\ g = gen_app (concat (map snd pages)) GReturn
          /\ gen_items g = concat (map snd pages)
          /\ gen_end g = None)
    /\ (exists segs,
           trace st' = (trace st ++ concat segs)%list
           /\ Forall2 (fun seg pg =>
                         sent_urls seg <> []
                         /\ (forall p, In (EvSend p) seg ->
                                       p_method p = "GET"
                                       /\ p_url p = PStr (fst pg)
                                       /\ p_params p
                                          = (if str_in "$skiptoken" (fst pg)
                                             then None else Some args)))
                segs pages).
Proof.
  intros config net py_float args path pages st st' Hchain Hfirst. split.
  - intros fuel Hfuel.
    destruct (chain_walk _ _ _ _ _ _ _ Hchain fuel Hfuel)
      as (url & ents & rest & -> & Hrun).
    simpl in Hfirst. injection Hfirst as ->.
    eexists. split; [exact Hrun|]. split; [reflexivity|]. split.
    + rewrite gen_items_app. simpl. apply app_nil_r.
    + now rewrite gen_end_app.
  - eapply chain_sends; eassumption.
Qed.

Lemma paged_entities_concat_witness :
  let net := scripted
               [Ok (ex_page [ex_user "a"; ex_user "b"]
                      (PStr "https://graph.example/users?$skiptoken=X"));
                Ok (ex_last_page [ex_user "c"])] in
  exists st' g,
    __get_all_paged_entities ex_config net ex_float 2 "users" ex_args ex_ready
    = Some (g, st')
    /\ g = gen_app [ex_user "a"; ex_user "b"; ex_user "c"] GReturn
    /\ gen_items g = [ex_user "a"; ex_user "b"; ex_user "c"]
    /\ gen_end g = None.
Proof.
  intros net. eexists.
  refine (proj1 (paged_entities_concat ex_config net ex_float ex_args "users"
                   [("https://graph.example/users", [ex_user "a"; ex_user "b"]);
                    ("https://graph.example/users?$skiptoken=X", [ex_user "c"])]
                   ex_ready _ _ eq_refl) 2%nat (le_n _)).
  eapply chain_next; [|eapply chain_last].
  - unfold served. eexists _, _, _. repeat split; cbv; reflexivity.
  - unfold served. eexists _, _, _. repeat split; cbv; reflexivity.
Defined.

(** C3 as stated fails: a chain of two pages is served and its entities
    are yielded in order, but the cursor of the first page, which has no
    ["$skiptoken"], is not asked for as it is: the request for it carries
    the caller's query arguments. *)
Lemma cursor_url_not_followed_verbatim :
  let net := scripted
               [Ok (ex_page [ex_user "a"]
                      (PStr "https://graph.example/users?page=2"));
                Ok (ex_last_page [ex_user "b"])] in
  exists st',
    page_chain ex_config net ex_float ex_args ex_ready
      [("https://graph.example/users", [ex_user "a"]);
       ("https://graph.example/users?page=2", [ex_user "b"])] st'
    /\ __get_all_paged_entities ex_config net ex_float 2 "users" ex_args ex_ready
       = Some (gen_app [ex_user "a"; ex_user "b"] GReturn, st')
    /\ trace st'
       = [EvSend {| p_method := "GET";
                    p_url := PStr "https://graph.example/users";
                    p_headers := [("Authorization", "Bearer old")];
                    p_params := Some [("$top", "2")] |};
          EvSend {| p_method := "GET";
                    p_url := PStr "https://graph.example/users?page=2";
                    p_headers := [("Authorization", "Bearer old")];
                    p_params := Some [("$top", "2")] |}].
Proof.
  intros net. eexists. split; [|split].
  - eapply chain_next; [|eapply chain_last].
    + unfold served. eexists _, _, _. repeat split; cbv; reflexivity.
    + unfold served. eexists _, _, _. repeat split; cbv; reflexivity.
  - reflexivity.
  - reflexivity.
Qed.

(** C4, as the code has it.  Every request sent during a paged fetch obeys
    the guard of the loop: it carries the caller's query arguments exactly
    when its url does not contain ["$skiptoken"], be it the first page or a
    cursor page; and every turn of the loop that succeeds has sent such a
    request to the url of the turn. *)
Theorem page_params_follow_skiptoken :
  (forall config net py_float fuel path args st g st',
      __get_all_paged_entities config net py_float fuel path args st
      = Some (g, st') ->
      exists evs,
        trace st' = (trace st ++ evs)%list
        /\ (forall p, In (EvSend p) evs -> params_rule args p))
  /\ (forall config net py_float args url st x,
         fst (fetch_page config net py_float args url st) = Ok x ->
         exists evs,
           trace (snd (fetch_page config net py_float args url st))
           = (trace st ++ evs)%list
           /\ sent_urls evs <> []
           /\ Forall (eq url) (sent_urls evs)
           /\ (forall p, In (EvSend p) evs -> params_rule args p)).
Proof.
  split.
  - intros config net py_float fuel path args st g st' Hrun.
    eapply paged_loop_params. exact Hrun.
  - intros config net py_float args url st x Hok.
    destruct (fetch_page_events config net py_float args url st)
      as (evs & Ht & Hurls & Hrule & Hsent).
    exists evs. repeat split; try assumption. now apply (Hsent x).
Qed.

Lemma page_params_follow_skiptoken_witness :
  let net := scripted
               [Ok (ex_page [ex_user "a"; ex_user "b"]
                      (PStr "https://graph.example/users?$skiptoken=X"));
                Ok (ex_last_page [ex_user "c"])] in
  exists g st',
    __get_all_paged_entities ex_config net ex_float 2 "users" ex_args ex_ready
    = Some (g, st')
    /\ exists evs,
        trace st' = (trace ex_ready ++ evs)%list
        /\ (forall p, In (EvSend p) evs -> params_rule ex_args p).
Proof.
  intros net. eexists _, _. split.
  - cbv. reflexivity.
  - eapply (proj1 page_params_follow_skiptoken ex_config net ex_float 2%nat
              "users" ex_args ex_ready).
    cbv. reflexivity.
Defined.

(** C4 as stated fails: a cursor url without ["$skiptoken"] is requested
    with the caller's query arguments. *)
Lemma cursor_without_skiptoken_gets_args :
  let net := scripted
               [Ok (ex_page [ex_user "a"]
                      (PStr "https://graph.example/users?page=2"));
                Ok (ex_last_page [ex_user "b"])] in
  exists st',
    __get_all_paged_entities ex_config net ex_float 2 "users" ex_args ex_ready
    = Some (gen_app [ex_user "a"; ex_user "b"] GReturn, st')
    /\ nth_error (trace st') 1
       = Some (EvSend {| p_method := "GET";
                         p_url := PStr "https://graph.example/users?page=2";
                         p_headers := [("Authorization", "Bearer old")];
                         p_params := Some ex_args |}).
Proof. intros net. eexists. split; reflexivity. Qed.

(** ** Identifier extraction: a sample *)

Lemma set_group_id_last_match_witness :
  set_group_id (PDict [("a:id", PStr "1"); ("b:id", PStr "2"); ("name", PStr "n")])
  = Ok (PStr "2")
  /\ set_group_id (PDict [("name", PStr "n")])
     = Raise (UnboundLocalError "groupid")
  /\ __get_all_siteurls ex_config
       (scripted [Ok (json_response (PDict [("webUrl", PStr "https://sp/a")]))])
       ([ex_user "g1"] ++ [PDict [("name", PStr "n")]; ex_user "g2"])%list
       ex_ready
     = (gen_app
          [PDict [("webUrl", PStr "https://sp/a"); ("_id", PStr "g1")]]
          (GRaise (UnboundLocalError "groupid")),
        snd (__get_all_siteurls ex_config
               (scripted [Ok (json_response (PDict [("webUrl", PStr "https://sp/a")]))])
               [ex_user "g1"] ex_ready)).
Proof.
  split; [|split].
  - apply (proj1 set_group_id_last_match [("a:id", PStr "1")] "b:id" (PStr "2")
             [("name", PStr "n")]).
    + reflexivity.
    + repeat constructor.
  - apply (proj1 (proj2 set_group_id_last_match) [("name", PStr "n")]).
    repeat constructor.
  - apply (proj2 (proj2 set_group_id_last_match) ex_config
             (scripted [Ok (json_response (PDict [("webUrl", PStr "https://sp/a")]))])
             [ex_user "g1"] (PDict [("name", PStr "n")]) [ex_user "g2"] ex_ready
             (gen_app [PDict [("webUrl", PStr "https://sp/a"); ("_id", PStr "g1")]]
                GReturn)).
    + reflexivity.
    + reflexivity.
    + reflexivity.
Defined.

(** ** The resolution chain *)

(** C5, at the inputs where it fails.  When the drive-url lookup returns
    [None], the download-url lookup sends nothing and returns [None], and
    [get_file] then calls [requests.get(None)]: the call raises
    [MissingSchema], so that [get_file] raises instead of returning
    [None]. *)
Theorem get_file_without_drive_url :
  forall config net path site st st1,
    _get_site_documents_drive_url config net site st = (Ok PNone, st1) ->
    _get_file_download_url config net path site st = (Ok PNone, st1)
    /\ get_file config net path site st
       = (Raise MissingSchema, log_call (EvGet PNone) st1).
Proof.
  intros config net path site st st1 Hdrive.
  assert (Hurl : _get_file_download_url config net path site st = (Ok PNone, st1)).
  { unfold _get_file_download_url. unfold bind at 1. now rewrite Hdrive. }
  split; [exact Hurl|].
  unfold get_file. unfold bind at 1. now rewrite Hurl.
Qed.

Lemma get_file_without_drive_url_witness :
  let net := scripted [Ok (json_response (PDict [("id", PStr "site-1")]));
                       Ok ex_not_found] in
  let run := get_file ex_config net "reports/q1.csv" "contoso:/teams/poc" ex_ready in
  fst run = Raise MissingSchema
  /\ sent_urls (trace (snd run))
     = [PStr "https://graph.example/sites/contoso:/teams/poc";
        PStr "https://graph.example//sites/site-1/drive"]
  /\ last (trace (snd run)) (EvGet (PStr EmptyString)) = EvGet PNone.
Proof.
  intros net run. subst run.
  rewrite (proj2 (get_file_without_drive_url ex_config net "reports/q1.csv"
                    "contoso:/teams/poc" ex_ready
                    (snd (_get_site_documents_drive_url ex_config net
                            "contoso:/teams/poc" ex_ready))
                    eq_refl)).
  repeat split.
Defined.

(** ** The pause between pages *)

(** C9, at a failing input.  With the delay set to ["500"], which the
    configuration and the log line of the loop count in milliseconds, the
    fetcher calls [time.sleep(500.0)] before the page: a pause of 500
    seconds, that is 500000 milliseconds. *)
Theorem inter_page_delay_is_slept_as_seconds :
  let net := fun (_ : list event) (_ : event) => Ok (ex_last_page [ex_user "a"]) in
  exists st',
    __get_all_paged_entities ex_config_sleep net ex_float 1 "users" [] ex_ready
    = Some (gen_app [ex_user "a"] GReturn, st')
    /\ trace st'
       = [EvSleep (500 # 1);
          EvSend {| p_method := "GET";
                    p_url := PStr "https://graph.example/users";
                    p_headers := [("Authorization", "Bearer old")];
                    p_params := Some [] |}]
    /\ suspended_ms (trace st') = (500000 # 1)%Q.
Proof. intros net. eexists. repeat split. Qed.

(** * Further properties *)

(** ** [split] and [join] *)

Lemma split_not_nil (sep : ascii) (s : string) : split sep s <> [].
Proof.
  destruct s as [|c s]; simpl; [discriminate|].
  destruct (Ascii.eqb c sep); [discriminate|].
  destruct (split sep s); discriminate.
Qed.

Lemma join_cons_char (sep : string) (c : ascii) (w : string) (ws : list string) :
  join sep (String c w :: ws) = String c (join sep (w :: ws)).
Proof. destruct ws; reflexivity. Qed.

Lemma split_length (sep : ascii) (s : string) :
  length (split sep s) = S (count_char sep s).
Proof.
  induction s as [|c s IH]; [reflexivity|]. simpl.
  destruct (Ascii.eqb c sep); simpl; [now rewrite IH|].
  destruct (split sep s); simpl in *; congruence.
Qed.

Lemma split_no_sep (sep : ascii) (s : string) :
  count_char sep s = O -> split sep s = [s].
Proof.
  induction s as [|c s IH]; [reflexivity|]. simpl.
  destruct (Ascii.eqb c sep); [discriminate|].
  intros H. now rewrite (IH H).
Qed.

Lemma split_app_sep (sep : ascii) (a s : string) :
  count_char sep a = O ->
  split sep (a ++ String sep s) = a :: split sep s.
Proof.
  induction a as [|c a IH]; simpl.
  - now rewrite Ascii.eqb_refl.
  - destruct (Ascii.eqb c sep); [discriminate|].
    intros H. now rewrite (IH H).
Qed.

Lemma last_split_app (sep : ascii) (p t d : string) :
  last (split sep (p ++ String sep t)) d = last (split sep t) d.
Proof.
  induction p as [|c p IH]; simpl.
  - rewrite Ascii.eqb_refl.
    pose proof (split_not_nil sep t). now destruct (split sep t).
  - pose proof (split_length sep (p ++ String sep t)) as Hlen.
    assert (Hpos : (1 <= count_char sep (p ++ String sep t))%nat).
    { clear. induction p as [|x p IHp]; simpl.
      - rewrite Ascii.eqb_refl. lia.
      - lia. }
    destruct (split sep (p ++ String sep t)) as [|w [|w' ws]];
      simpl in Hlen; try lia.
    destruct (Ascii.eqb c sep); exact IH.
Qed.

(** A string either has no separator or ends, after its last separator,
    with the last piece [split] gives. *)
Lemma split_last_cases (sep : ascii) (s : string) :
  split sep s = [s]
  \/ exists p, s = p ++ String sep (last (split sep s) EmptyString).
Proof.
  induction s as [|c s IH]; [now left|]. simpl.
  destruct (Ascii.eqb_spec c sep) as [->|Hne].
  - right. destruct IH as [Hone|(p & Hp)].
    + exists EmptyString. rewrite Hone. reflexivity.
    + exists (String sep p).
      pose proof (split_not_nil sep s).
      destruct (split sep s) as [|w ws] eqn:Hs; [congruence|].
      simpl. simpl in Hp. now rewrite Hp at 1.
  - destruct IH as [Hone|(p & Hp)].
    + left. now rewrite Hone.
    + right. exists (String c p).
      pose proof (split_length sep s) as Hlen.
      assert (Hpos : (1 <= count_char sep s)%nat).
      { rewrite Hp. clear. induction p as [|x p IHp]; simpl.
        - rewrite Ascii.eqb_refl. lia.
        - lia. }
      destruct (split sep s) as [|w [|w' ws]] eqn:Hs; simpl in Hlen; try lia.
      simpl. simpl in Hp. now rewrite Hp at 1.
Qed.

Lemma join_split_inv (sep : ascii) (s : string) :
  join (String sep EmptyString) (split sep s) = s.
Proof.
  induction s as [|c s IH]; [reflexivity|]. simpl.
  destruct (Ascii.eqb_spec c sep) as [->|Hne].
  - pose proof (split_not_nil sep s).
    destruct (split sep s) as [|w ws]; [congruence|].
    simpl in *. now rewrite IH.
  - pose proof (split_not_nil sep s).
    destruct (split sep s) as [|w ws]; [congruence|].
    rewrite join_cons_char. now rewrite IH.
Qed.

(** X1.  Joining the pieces of [s.split(sep)] with [sep] gives [s] back,
    and the number of pieces is one more than the number of separators in
    [s]. *)
Theorem join_split (sep : ascii) (s : string) :
  join (String sep EmptyString) (split sep s) = s
  /\ length (split sep s) = S (count_char sep s).
Proof. split; [apply join_split_inv | apply split_length]. Qed.

(** X2.  The key test of [set_group_id] accepts exactly the key ["id"] and
    the keys that end with [":id"]. *)
Theorem id_key_iff (k : string) :
  id_key k = true <-> k = "id" \/ exists p, k = p ++ ":id".
Proof.
  unfold id_key, last_item. rewrite String.eqb_eq. split.
  - intros Hlast. destruct (split_last_cases ":" k) as [Hone|(p & Hp)].
    + left. rewrite Hone in Hlast. exact Hlast.
    + right. exists p. now rewrite Hlast in Hp.
  - intros [->|(p & ->)]; [reflexivity|].
    change (p ++ ":id") with (p ++ String ":" "id").
    now rewrite last_split_app.
Qed.

(** ** More on the token manager and the request executor *)

Section ExecutorFacts.
Variable config : AppConfig.
Variable net : list event -> event -> result response.

Let token_call : event := EvPost (token_url config) (payload config).

(** The state a successful acquisition of [tok] leaves. *)
Let granted (st : state) (tok : string) : state :=
  {| self := {| session := session (self st);
                auth_header := Some [("Authorization", "Bearer " ++ tok)];
                graph_url := graph_url (self st) |};
     trace := (trace st ++ [token_call])%list |}.

Lemma get_token_keeps (st : state) :
  session (self (snd (get_token config net st))) = session (self st)
  /\ graph_url (self (snd (get_token config net st))) = graph_url (self st).
Proof.
  destruct (get_token config net st) as [[[]|e] st'] eqn:Hrun; simpl.
  - destruct (get_token_ok_self _ _ _ _ Hrun) as (_ & Hs & Hg & _). now split.
  - rewrite (get_token_raise_self _ _ _ _ _ Hrun). now split.
Qed.

Lemma ensure_session_cases (st : state) :
  (session (self st) = true /\ ensure_session config net st = (Ok tt, st))
  \/ (session (self st) = false
      /\ ensure_session config net st
         = get_token config net
             {| self := {| session := true;
                           auth_header := auth_header (self st);
                           graph_url := graph_url (self st) |};
                trace := trace st |}).
Proof.
  assert (H : ensure_session config net st
              = if session (self st) then (Ok tt, st)
                else get_token config net
                       {| self := {| session := true;
                                     auth_header := auth_header (self st);
                                     graph_url := graph_url (self st) |};
                          trace := trace st |}).
  { unfold ensure_session. unfold bind at 1, get_self. cbv beta iota.
    destruct (session (self st)); simpl; [reflexivity|].
    unfold bind, set_self.
    now destruct (get_token config net _) as [[[]|e] st']. }
  rewrite H. destruct (session (self st)); [left|right]; now split.
Qed.

Lemma ensure_session_keeps (st : state) :
  session (self (snd (ensure_session config net st))) = true
  /\ graph_url (self (snd (ensure_session config net st))) = graph_url (self st).
Proof.
  destruct (ensure_session_cases st) as [[Hs ->]|[_ ->]]; [now split|].
  match goal with
  | |- context [get_token config net ?s] =>
      destruct (get_token_keeps s) as (H1 & H2)
  end.
  now rewrite H1, H2.
Qed.

Lemma ensure_session_events (st : state) :
  trace (snd (ensure_session config net st)) = trace st
  \/ trace (snd (ensure_session config net st)) = (trace st ++ [token_call])%list.
Proof.
  destruct (ensure_session_cases st) as [[_ ->]|[_ ->]]; [now left|right].
  now rewrite get_token_trace.
Qed.

(** X3.  A token acquisition that fails, for whatever reason, has made
    one call to the token endpoint and leaves the [Graph] object, the
    stored header included, as it was. *)
Theorem get_token_failure_keeps_credential (st st' : state) (e : exn) :
  get_token config net st = (Raise e, st') ->
  self st' = self st /\ trace st' = (trace st ++ [token_call])%list.
Proof.
  intros Hrun. rewrite (get_token_raise_self _ _ _ _ _ Hrun). now split.
Qed.

(** X4.  [get_token] succeeds exactly when the token endpoint answers with
    an [ok] status and a JSON record whose [access_token] is a string; it
    then stores the header [Authorization: Bearer <token>] and changes
    nothing else of the [Graph] object. *)
Theorem get_token_success_iff (st st' : state) :
  get_token config net st = (Ok tt, st')
  <-> exists resp body tok,
      net (trace st) token_call = Ok resp
      /\ ok resp = true
      /\ json_body resp = Some body
      /\ py_get body "access_token" = Ok (PStr tok)
      /\ st' = granted st tok.
Proof.
  unfold get_token, token_call, granted. run_M. split.
  - destruct (net (trace st) _) as [resp|e0] eqn:Hnet; [|discriminate].
    destruct (ok resp) eqn:Hok; simpl; [|discriminate].
    unfold resp_json.
    destruct (json_body resp) as [body|] eqn:Hbody; [|discriminate].
    destruct (py_get body "access_token") as [tok|e0] eqn:Hget; [|discriminate].
    destruct tok; simpl; try discriminate.
    intros H. injection H as <-. now exists resp, body, s.
  - intros (resp & body & tok & Hnet & Hok & Hbody & Hget & ->).
    unfold resp_json. rewrite Hnet, Hok. simpl. rewrite Hbody, Hget.
    reflexivity.
Qed.

(** X5.  A first response whose status is not 401, success or not, is
    returned as it is: the request was sent once, no token was acquired
    for it and the [Graph] object is untouched. *)
Theorem request_passes_other_statuses (method : string) (url : pyval)
  (params : option args) (st st0 : state) (r1 : response) :
  ensure_session config net st = (Ok tt, st0) ->
  net (trace st0)
    (EvSend (prepare (mkRequest method url (auth_header (self st0)) params)))
  = Ok r1 ->
  status_code r1 <> 401 ->
  request config net method url params st
  = (Ok r1,
     log_call
       (EvSend (prepare (mkRequest method url (auth_header (self st0)) params)))
       st0).
Proof.
  intros Hens Hr1 Hne. rewrite request_unfold, Hens. cbv zeta.
  rewrite Hr1. apply Z.eqb_neq in Hne. now rewrite Hne.
Qed.

(** X6.  Whatever the network does, one call of [Graph.request] sends at
    most two requests and asks the token endpoint at most twice. *)
Theorem request_call_bounds (method : string) (url : pyval)
  (params : option args) (st : state) :
  exists evs,
    trace (snd (request config net method url params st))
    = (trace st ++ evs)%list
    /\ (count_sends evs <= 2)%nat
    /\ (count_posts evs <= 2)%nat.
Proof.
  rewrite request_unfold.
  assert (Hens : exists evs0,
             trace (snd (ensure_session config net st)) = (trace st ++ evs0)%list
             /\ (evs0 = [] \/ evs0 = [token_call])).
  { destruct (ensure_session_events st) as [H|H].
    - exists []. rewrite app_nil_r. now split; [|left].
    - exists [token_call]. now split; [|right]. }
  destruct Hens as (evs0 & Ht0 & Hev0).
  destruct (ensure_session config net st) as [[[]|e] st0]; simpl in Ht0.
  2:{ exists evs0. split; [assumption|].
      destruct Hev0 as [->| ->]; cbv; lia. }
  cbv zeta.
  set (p := prepare (mkRequest method url (auth_header (self st0)) params)).
  destruct (net (trace st0) (EvSend p)) as [r1|e].
  2:{ exists (evs0 ++ [EvSend p])%list. simpl. rewrite Ht0, <- app_assoc.
      split; [reflexivity|]. destruct Hev0 as [->| ->]; cbv; lia. }
  destruct (status_code r1 =? 401).
  2:{ exists (evs0 ++ [EvSend p])%list. simpl. rewrite Ht0, <- app_assoc.
      split; [reflexivity|]. destruct Hev0 as [->| ->]; cbv; lia. }
  pose proof (get_token_trace config net (log_call (EvSend p) st0)) as Ht2.
  destruct (get_token config net (log_call (EvSend p) st0)) as [[[]|e] st2];
    simpl in Ht2.
  - exists (evs0 ++ [EvSend p; token_call; EvSend p])%list. simpl.
    rewrite Ht2, Ht0, <- !app_assoc.
    split; [reflexivity|]. destruct Hev0 as [->| ->]; cbv; lia.
  - exists (evs0 ++ [EvSend p; token_call])%list. simpl.
    rewrite Ht2, Ht0, <- !app_assoc.
    split; [reflexivity|]. destruct Hev0 as [->| ->]; cbv; lia.
Qed.

Lemma request_keeps (method : string) (url : pyval) (params : option args)
  (st : state) :
  session (self (snd (request config net method url params st))) = true
  /\ graph_url (self (snd (request config net method url params st)))
     = graph_url (self st).
Proof.
  rewrite request_unfold.
  destruct (ensure_session_keeps st) as (Hs0 & Hg0).
  destruct (ensure_session config net st) as [[[]|e] st0]; simpl in Hs0, Hg0;
    [|now split].
  cbv zeta.
  set (p := prepare (mkRequest method url (auth_header (self st0)) params)).
  destruct (net (trace st0) (EvSend p)) as [r1|e]; [|now split].
  destruct (status_code r1 =? 401); [|now split].
  destruct (get_token_keeps (log_call (EvSend p) st0)) as (Hs2 & Hg2).
  destruct (get_token config net (log_call (EvSend p) st0)) as [[[]|e] st2];
    simpl in Hs2, Hg2 |- *; rewrite Hs2, Hg2; now split.
Qed.

(** X7.  After any call of [Graph.request], failed or not, the session
    exists and the base url of the [Graph] object is what it was. *)
Theorem request_keeps_session_and_url (method : string) (url : pyval)
  (params : option args) (st : state) (r : result response) (st' : state) :
  request config net method url params st = (r, st') ->
  session (self st') = true /\ graph_url (self st') = graph_url (self st).
Proof.
  intros Hrun. pose proof (request_keeps method url params st) as H.
  now rewrite Hrun in H.
Qed.

(** X8.  When the acquisition of the first use fails, [Graph.request]
    raises without sending, but the session stays: the next call does not
    acquire a token first, and a request of that call that gets a response
    was sent at once with the header the object had before, which for a new
    [Graph] means without an [Authorization] header. *)
Theorem failed_first_acquisition_sends_bare (method : string) (url : pyval)
  (params : option args) (st st1 : state) (e : exn) :
  ensure_session config net st = (Raise e, st1) ->
  auth_header (self st) = None ->
  request config net method url params st = (Raise e, st1)
  /\ trace st1 = (trace st ++ [token_call])%list
  /\ session (self st1) = true
  /\ auth_header (self st1) = None
  /\ forall net' method' url' params' r,
      net' (trace st1)
        (EvSend {| p_method := method'; p_url := url';
                   p_headers := []; p_params := params' |}) = Ok r ->
      exists rest,
        trace (snd (request config net' method' url' params' st1))
        = (trace st1
           ++ EvSend {| p_method := method'; p_url := url';
                        p_headers := []; p_params := params' |} :: rest)%list.
Proof.
  intros Hens Hnone.
  assert (Hreq : request config net method url params st = (Raise e, st1))
    by now rewrite request_unfold, Hens.
  destruct (ensure_session_cases st) as [[_ Hok]|[Hs Hfail]];
    [rewrite Hok in Hens; discriminate|].
  rewrite Hens in Hfail. symmetry in Hfail.
  apply get_token_raise_self in Hfail. subst st1. simpl.
  repeat split; try assumption.
  intros net' method' url' params' r Hr. rewrite request_unfold.
  unfold ensure_session, bind, get_self. simpl. rewrite Hnone.
  unfold prepare. simpl. rewrite Hr.
  destruct (status_code r =? 401); [|exists []; reflexivity].
  match goal with
  | |- context [get_token config net' ?s] =>
      pose proof (get_token_trace config net' s) as Ht;
      destruct (get_token config net' s) as [[[]|e2] st2]; simpl in Ht |- *
  end.
  - eexists [EvPost (token_url config) (payload config); EvSend _].
    rewrite Ht. simpl. now rewrite <- !app_assoc.
  - exists [EvPost (token_url config) (payload config)].
    rewrite Ht. simpl. now rewrite <- !app_assoc.
Qed.

(** X9.  On first use the executor acquires a token before it sends: a
    request of that call that gets a response was sent right after the
    token request, and carries the token just acquired. *)
Theorem first_use_acquires_then_sends (method : string) (url : pyval)
  (params : option args) (st st0 : state) (r1 : response) :
  session (self st) = false ->
  ensure_session config net st = (Ok tt, st0) ->
  net (trace st0)
    (EvSend (prepare (mkRequest method url (auth_header (self st0)) params)))
  = Ok r1 ->
  exists tok rest,
    auth_header (self st0) = Some [("Authorization", "Bearer " ++ tok)]
    /\ trace (snd (request config net method url params st))
       = (trace st
          ++ token_call
          :: EvSend {| p_method := method; p_url := url;
                       p_headers := [("Authorization", ("Bearer " ++ tok)%string)];
                       p_params := params |} :: rest)%list.
Proof.
  intros Hs Hens Hr1.
  destruct (ensure_session_cases st) as [[Hs' _]|[_ Hrun]]; [congruence|].
  rewrite Hens in Hrun. symmetry in Hrun.
  destruct (get_token_ok_self _ _ _ _ Hrun) as (Ht0 & _ & _ & tok & Hhdr).
  simpl in Ht0. exists tok.
  rewrite request_unfold, Hens. cbv zeta. rewrite Hr1.
  rewrite Hhdr. unfold prepare. simpl.
  destruct (status_code r1 =? 401).
  2:{ exists []. simpl. now rewrite Ht0, <- app_assoc. }
  match goal with
  | |- context [get_token config net ?s] =>
      pose proof (get_token_trace config net s) as Ht;
      destruct (get_token config net s) as [[[]|e2] st2]; simpl in Ht |- *
  end.
  - eexists [token_call; EvSend _]. rewrite Ht, Ht0. now rewrite <- !app_assoc.
  - exists [token_call]. rewrite Ht, Ht0. now rewrite <- !app_assoc.
Qed.

End ExecutorFacts.

(** ** More on the paged entity fetcher *)



Section FetcherFacts.
Variable config : AppConfig.
Variable net : list event -> event -> result response.
Variable py_float : string -> result Q.

(** Walking the first pages of a collection, then whatever the rest of
    the walk does. *)
Lemma prefix_walk (args : args) (pages : list (string * list pyval))
  (url nxt : string) (st st' : state) :
  page_prefix config net py_float args st url pages nxt st' ->
  forall fuel,
    paged_loop config net py_float (length pages + fuel) args (PStr url) st
    = match paged_loop config net py_float fuel args (PStr nxt) st' with
      | Some (g, s) => Some (gen_app (concat (map snd pages)) g, s)
      | None => None
      end.
Proof.
  induction 1 as [url st|url ents mid rest nxt st st1 st' Hserved _ IH];
    intros fuel.
  - simpl length. simpl plus.
    now destruct (paged_loop config net py_float fuel args (PStr url) st)
      as [[g s]|].
  - simpl length. simpl plus. cbn [paged_loop].
    rewrite (served_fetch_page _ _ _ _ _ _ _ _ _ Hserved), IH.
    destruct (paged_loop config net py_float fuel args (PStr nxt) st')
      as [[g s]|]; [|reflexivity].
    cbn [map concat snd]. now rewrite (gen_app_app ents).
Qed.

(** X10.  When the turn for some page fails, the fetcher has yielded the
    entities of the pages before it, in order, and then raises the
    exception of that turn; no later page is asked for. *)
Theorem paged_failure_keeps_earlier_pages (args : args) (path : string)
  (pages : list (string * list pyval)) (nxt : string) (st st' st2 : state)
  (e : exn) :
  page_prefix config net py_float args st (graph_url (self st) ++ path)
    pages nxt st' ->
  fetch_page config net py_float args (PStr nxt) st' = (Raise e, st2) ->
  forall fuel, (length pages < fuel)%nat ->
    __get_all_paged_entities config net py_float fuel path args st
    = Some (gen_app (concat (map snd pages)) (GRaise e), st2).
Proof.
  intros Hprefix Hturn fuel Hfuel. unfold __get_all_paged_entities.
  replace fuel with (length pages + S (fuel - S (length pages)))%nat by lia.
  rewrite (prefix_walk _ _ _ _ _ _ Hprefix).
  cbn [paged_loop]. now rewrite Hturn.
Qed.

(** X11.  A page response that is not [ok] ends the turn with an
    [AssertionError] whose message gives the status code and the text of
    the response. *)
Theorem fetch_page_rejects_error_status (args : args) (url : string)
  (st st0 st1 : state) (r : response) :
  throttle config py_float st = (Ok tt, st0) ->
  request config net "GET" (PStr url)
    (if str_in "$skiptoken" url then None else Some args) st0 = (Ok r, st1) ->
  ok r = false ->
  fetch_page config net py_float args (PStr url) st
  = (Raise (AssertionError
              ("Unexpected response status code: "
               ++ string_of_Z (status_code r)
               ++ " with response text " ++ content r)),
     st1).
Proof.
  intros Hth Hreq Hok. rewrite fetch_page_unfold, Hth. simpl py_in. cbv iota.
  assert (Hk : (if negb (str_in "$skiptoken" url) then Some args else None)
               = (if str_in "$skiptoken" url then None else Some args))
    by now destruct (str_in "$skiptoken" url).
  rewrite Hk, Hreq. unfold read_page. now rewrite Hok.
Qed.

(** X12.  An [ok] page whose record has nothing, or [null], at the
    entities path ends the turn with a [TypeError]: the loop iterates over
    [None]. *)
Theorem fetch_page_without_collection (args : args) (url : string)
  (st st0 st1 : state) (r : response) (kvs : list (string * pyval)) :
  throttle config py_float st = (Ok tt, st0) ->
  request config net "GET" (PStr url)
    (if str_in "$skiptoken" url then None else Some args) st0 = (Ok r, st1) ->
  ok r = true ->
  json_body r = Some (PDict kvs) ->
  dd_get (PDict kvs) (entities_path config) = PNone ->
  fetch_page config net py_float args (PStr url) st = (Raise TypeError, st1).
Proof.
  intros Hth Hreq Hok Hbody Hnone.
  rewrite fetch_page_unfold, Hth. simpl py_in. cbv iota.
  assert (Hk : (if negb (str_in "$skiptoken" url) then Some args else None)
               = (if str_in "$skiptoken" url then None else Some args))
    by now destruct (str_in "$skiptoken" url).
  rewrite Hk, Hreq. unfold read_page, resp_json.
  rewrite Hok, Hbody. simpl. now rewrite Hnone.
Qed.





End FetcherFacts.

(** ** The site-url generator *)

Lemma assoc_set_same (k : string) (v : pyval) (kvs : list (string * pyval)) :
  assoc k (assoc_set k v kvs) = Some v.
Proof.
  induction kvs as [|[k' v'] kvs IH]; simpl.
  - now rewrite String.eqb_refl.
  - destruct (String.eqb k k') eqn:Hk; simpl.
    + now rewrite String.eqb_refl.
    + now rewrite Hk.
Qed.

Section SiteFacts.
Variable config : AppConfig.
Variable net : list event -> event -> result response.

(** What one turn of the loop yields carries the identifier of its
    entity. *)
Lemma siteurl_of_id (entity res : pyval) (st st1 : state) :
  siteurl_of config net entity st = (Ok (Some res), st1) ->
  exists gid, set_group_id entity = Ok gid /\ py_get res "_id" = Ok gid.
Proof.
  unfold siteurl_of. unfold bind at 1, get_self. cbv beta iota.
  unfold bind at 1, lift at 1.
  destruct (set_group_id entity) as [gid|e] eqn:Hgid; [|discriminate].
  unfold bind at 1, lift at 1.
  destruct (str_add _ gid) as [prefix|e]; [|discriminate].
  unfold bind at 1.
  destruct (request config net "GET" _ None st) as [[req|e] st']; [|discriminate].
  destruct (negb (ok req)); [discriminate|].
  unfold bind, lift, ret.
  destruct (resp_json req) as [body|e]; [|discriminate].
  destruct body; simpl; try discriminate.
  intros H. injection H as <- _. exists gid. split; [reflexivity|].
  simpl. now rewrite assoc_set_same.
Qed.

(** X16.  The site-url generator yields at most one descriptor per posted
    entity, and every descriptor it yields holds, under [_id], the
    identifier [set_group_id] extracts from one of the posted entities. *)
Theorem siteurls_carry_entity_id (posted_entities : list pyval) :
  forall st g st',
    __get_all_siteurls config net posted_entities st = (g, st') ->
    (length (gen_items g) <= length posted_entities)%nat
    /\ Forall (fun res =>
                 exists entity gid,
                   In entity posted_entities
                   /\ set_group_id entity = Ok gid
                   /\ py_get res "_id" = Ok gid)
         (gen_items g).
Proof.
  induction posted_entities as [|entity rest IH]; intros st g st' Hrun.
  - simpl in Hrun. injection Hrun as <- _. simpl. split; [lia|constructor].
  - simpl in Hrun.
    destruct (siteurl_of config net entity st) as [[[res|]|e] st1] eqn:Hturn.
    + destruct (__get_all_siteurls config net rest st1) as [g' st2] eqn:Hrest.
      injection Hrun as <- _. destruct (IH _ _ _ Hrest) as (Hlen & Hall).
      simpl. split; [lia|]. constructor.
      * destruct (siteurl_of_id _ _ _ _ Hturn) as (gid & Hgid & Hget).
        exists entity, gid. repeat split; [now left|assumption..].
      * eapply Forall_impl; [|exact Hall].
        intros r (ent & gid & Hin & Hgid & Hget).
        exists ent, gid. repeat split; [now right|assumption..].
    + destruct (IH _ _ _ Hrun) as (Hlen & Hall). split; [simpl; lia|].
      eapply Forall_impl; [|exact Hall].
      intros r (ent & gid & Hin & Hgid & Hget).
      exists ent, gid. repeat split; [now right|assumption..].
    + injection Hrun as <- _. simpl. split; [lia|constructor].
Qed.

(** X17.  A group whose site lookup is answered with a status that is not
    [ok] is passed over without a word in the output: the generator goes
    on with the next entity, from the state the lookup left. *)
Theorem siteurls_skip_not_found (entity : pyval) (rest : list pyval)
  (gid : string) (st st1 : state) (r : response) :
  set_group_id entity = Ok (PStr gid) ->
  request config net "GET"
    (PStr (((graph_url (self st) ++ "groups/") ++ gid) ++ "/sites/root")) None st
  = (Ok r, st1) ->
  ok r = false ->
  __get_all_siteurls config net (entity :: rest) st
  = __get_all_siteurls config net rest st1.
Proof.
  intros Hgid Hreq Hok. simpl.
  assert (Hturn : siteurl_of config net entity st = (Ok None, st1)).
  { unfold siteurl_of. unfold bind at 1, get_self. cbv beta iota.
    unfold bind at 1, lift at 1. rewrite Hgid.
    unfold bind at 1, lift at 1. cbn [str_add]. cbv beta iota.
    unfold bind at 1. rewrite Hreq, Hok. reflexivity. }
  now rewrite Hturn.
Qed.

End SiteFacts.

(** ** More on the resolution chain *)

Section ChainFacts.
Variable config : AppConfig.
Variable net : list event -> event -> result response.

(** The site lookup, one step at a time. *)
Lemma site_id_unfold (site : string) (st : state) :
  _get_sharepoint_site_id config net site st
  = match request config net "GET"
            (PStr (graph_url (self st) ++ "sites/" ++ site)) None st with
    | (Raise e, st1) => (Raise e, st1)
    | (Ok resp, st1) =>
        if negb (ok resp) then (Ok PNone, st1)
        else match resp_json resp with
             | Raise e => (Raise e, st1)
             | Ok body => (py_get body "id", st1)
             end
    end.
Proof.
  unfold _get_sharepoint_site_id. unfold bind at 1, get_self. cbv beta iota zeta.
  unfold bind at 1.
  destruct (request config net "GET" _ None st) as [[resp|e] st1]; [|reflexivity].
  destruct (negb (ok resp)); [reflexivity|].
  unfold bind, lift. now destruct (resp_json resp).
Qed.

(** The drive lookup after a site lookup that gave a string. *)
Lemma drive_url_unfold (site sid : string) (st st1 : state) :
  _get_sharepoint_site_id config net site st = (Ok (PStr sid), st1) ->
  sid <> EmptyString ->
  _get_site_documents_drive_url config net site st
  = match request config net "GET"
            (PStr (((graph_url (self st1) ++ "/sites/") ++ sid) ++ "/drive"))
            None st1 with
    | (Raise e, st2) => (Raise e, st2)
    | (Ok resp, st2) =>
        if negb (ok resp) then (Ok PNone, st2)
        else match resp_json resp with
             | Raise e => (Raise e, st2)
             | Ok body =>
                 match py_get body "id" with
                 | Raise e => (Raise e, st2)
                 | Ok drive_id =>
                     match str_add
                             ((((graph_url (self st1) ++ "/sites/") ++ sid)
                               ++ "/drive") ++ "s/") drive_id with
                     | Raise e => (Raise e, st2)
                     | Ok drive => (Ok (PStr (drive ++ "/root:/")), st2)
                     end
                 end
             end
    end.
Proof.
  intros Hsite Hne. unfold _get_site_documents_drive_url.
  unfold bind at 1. rewrite Hsite. cbn [truthy].
  apply String.eqb_neq in Hne. rewrite Hne. cbn [negb].
  unfold bind at 1, get_self. cbv beta iota.
  unfold bind at 1, lift at 1. cbn [str_add]. cbv beta iota zeta.
  unfold bind at 1.
  destruct (request config net "GET" _ None st1) as [[resp|e] st2]; [|reflexivity].
  destruct (negb (ok resp)); [reflexivity|].
  unfold bind, lift, ret.
  destruct (resp_json resp) as [body|e]; [|reflexivity].
  destruct (py_get body "id") as [drive_id|e]; [|reflexivity].
  now destruct (str_add _ drive_id).
Qed.

(** X18.  When the site lookup is answered with a status that is not [ok],
    or with a record whose [id] is missing, null or empty, the chain stops
    there: the download-url lookup returns [None] from the state the site
    request left, so that neither the drive nor the file metadata was asked
    for; [get_file] then calls [requests.get(None)] and raises
    [MissingSchema]. *)
Theorem site_lookup_failure_stops_chain (path site : string)
  (st st1 : state) (r : response) :
  request config net "GET"
    (PStr (graph_url (self st) ++ "sites/" ++ site)) None st = (Ok r, st1) ->
  ok r = false
  \/ (exists body v,
         ok r = true /\ json_body r = Some body
         /\ py_get body "id" = Ok v /\ truthy v = false) ->
  _get_site_documents_drive_url config net site st = (Ok PNone, st1)
  /\ _get_file_download_url config net path site st = (Ok PNone, st1)
  /\ get_file config net path site st
     = (Raise MissingSchema, log_call (EvGet PNone) st1).
Proof.
  intros Hreq Hfail.
  assert (Hsite : exists v, _get_sharepoint_site_id config net site st = (Ok v, st1)
                            /\ truthy v = false).
  { rewrite site_id_unfold, Hreq.
    destruct Hfail as [Hok|(body & v & Hok & Hbody & Hget & Hv)].
    - rewrite Hok. now exists PNone.
    - unfold resp_json. rewrite Hok, Hbody, Hget. now exists v. }
  destruct Hsite as (v & Hsite & Hv).
  assert (Hdrive : _get_site_documents_drive_url config net site st = (Ok PNone, st1)).
  { unfold _get_site_documents_drive_url. unfold bind at 1.
    now rewrite Hsite, Hv. }
  assert (Hdown : _get_file_download_url config net path site st
                  = (Ok PNone, st1)).
  { unfold _get_file_download_url. unfold bind at 1. now rewrite Hdrive. }
  repeat split; [exact Hdrive | exact Hdown |].
  unfold get_file. unfold bind at 1. now rewrite Hdown.
Qed.

(** X19.  [get_file] returns [None] only after the last, unauthenticated
    request was made to a download url that the chain did resolve, and was
    answered with a status that is not [ok]: no earlier stage makes it
    return [None]. *)
Theorem get_file_none_only_from_download (path site : string) (st st' : state) :
  get_file config net path site st = (Ok None, st') ->
  exists url r st1,
    _get_file_download_url config net path site st = (Ok url, st1)
    /\ url <> PNone
    /\ net (trace st1) (EvGet url) = Ok r
    /\ ok r = false
    /\ st' = log_call (EvGet url) st1.
Proof.
  unfold get_file. unfold bind at 1.
  destruct (_get_file_download_url config net path site st)
    as [[url|e] st1]; [|discriminate].
  unfold bind, requests_get, call.
  destruct url; try discriminate;
    match goal with
    | |- context [net (trace st1) (EvGet ?u)] =>
        destruct (net (trace st1) (EvGet u)) as [r|err] eqn:Hnet;
        [|discriminate];
        destruct (ok r) eqn:Hok; simpl; [discriminate|];
        intros H; injection H as <-;
        exists u, r, st1; repeat split; try assumption; discriminate
    end.
Qed.

(** X20.  When the three lookups are answered with [ok] records that hold
    a site id, a drive id and a download url, the requests go to
    [<base>sites/<site>], [<base>/sites/<site id>/drive] and
    [<base>/sites/<site id>/drives/<drive id>/root:/<path>], the download
    url is fetched as it is, and [get_file] returns the bytes of that last
    response if it is [ok], [None] if not. *)
Theorem get_file_resolves_and_downloads (path site sid did durl : string)
  (st st1 st2 st3 : state) (r1 r2 r3 r4 : response) (b1 b2 b3 : pyval) :
  let base := graph_url (self st) in
  request config net "GET" (PStr (base ++ "sites/" ++ site)) None st
  = (Ok r1, st1) ->
  ok r1 = true -> json_body r1 = Some b1 ->
  py_get b1 "id" = Ok (PStr sid) -> sid <> EmptyString ->
  request config net "GET"
    (PStr (base ++ "/sites/" ++ sid ++ "/drive")) None st1 = (Ok r2, st2) ->
  ok r2 = true -> json_body r2 = Some b2 ->
  py_get b2 "id" = Ok (PStr did) ->
  request config net "GET"
    (PStr (base ++ "/sites/" ++ sid ++ "/drives/" ++ did ++ "/root:/" ++ path))
    None st2 = (Ok r3, st3) ->
  ok r3 = true -> json_body r3 = Some b3 ->
  py_get b3 "@microsoft.graph.downloadUrl" = Ok (PStr durl) ->
  net (trace st3) (EvGet (PStr durl)) = Ok r4 ->
  get_file config net path site st
  = (Ok (if ok r4 then Some (content r4) else None),
     log_call (EvGet (PStr durl)) st3).
Proof.
  intros base H1 Hok1 Hb1 Hid1 Hsid H2 Hok2 Hb2 Hid2 H3 Hok3 Hb3 Hurl H4.
  subst base.
  assert (Hg1 : graph_url (self st1) = graph_url (self st)).
  { pose proof (request_keeps config net "GET"
                  (PStr (graph_url (self st) ++ "sites/" ++ site)) None st) as H.
    rewrite H1 in H. apply H. }
  assert (Hsite : _get_sharepoint_site_id config net site st = (Ok (PStr sid), st1)).
  { rewrite site_id_unfold, H1, Hok1. unfold resp_json. now rewrite Hb1, Hid1. }
  assert (Hu2 : ((graph_url (self st1) ++ "/sites/") ++ sid) ++ "/drive"
                = graph_url (self st) ++ "/sites/" ++ sid ++ "/drive").
  { now rewrite Hg1, !str_app_assoc. }
  assert (Hdrive : _get_site_documents_drive_url config net site st
                   = (Ok (PStr (graph_url (self st) ++ "/sites/" ++ sid
                                ++ "/drives/" ++ did ++ "/root:/")), st2)).
  { rewrite (drive_url_unfold _ _ _ _ Hsite Hsid), Hu2, H2, Hok2.
    unfold resp_json. rewrite Hb2, Hid2. cbn [negb str_add].
    do 2 f_equal. f_equal. now rewrite !str_app_assoc. }
  assert (Hdown : _get_file_download_url config net path site st
                  = (Ok (PStr durl), st3)).
  { unfold _get_file_download_url. unfold bind at 1. rewrite Hdrive.
    assert (Htrue : truthy (PStr (graph_url (self st) ++ "/sites/" ++ sid
                                  ++ "/drives/" ++ did ++ "/root:/")) = true).
    { cbn [truthy].
      destruct (graph_url (self st)); reflexivity. }
    rewrite Htrue. unfold bind at 1, lift at 1. cbv beta iota.
    rewrite !str_app_assoc. unfold bind at 1.
    rewrite H3, Hok3. unfold bind, lift, resp_json. cbn [negb].
    now rewrite Hb3, Hurl. }
  unfold get_file. unfold bind at 1. rewrite Hdown.
  unfold bind, requests_get, call. rewrite H4.
  now destruct (ok r4).
Qed.

End ChainFacts.

(** ** The routes *)

Lemma emitted_returns (dumps : pyval -> string) (rs : list pyval) :
  emitted (stream_json dumps (gen_app rs GReturn))
  = "[" ++ join "," (map dumps rs) ++ "]".
Proof.
  unfold emitted. rewrite stream_json_returns, gen_items_app. simpl gen_items.
  rewrite app_nil_r. cbn [fold_right]. now rewrite text_app, text_chunks.
Qed.

Lemma emitted_raises (dumps : pyval -> string) (rs : list pyval) (e : exn) :
  emitted (stream_json dumps (gen_app rs (GRaise e)))
  = "[" ++ join "," (map dumps rs)
  /\ gen_end (stream_json dumps (gen_app rs (GRaise e))) = Some e.
Proof.
  rewrite stream_json_raises. split.
  - unfold emitted. rewrite gen_items_app. simpl gen_items.
    rewrite app_nil_r. cbn [fold_right]. now rewrite text_chunks.
  - now rewrite gen_end_app.
Qed.

Section RouteFacts.
Variable config : AppConfig.
Variable net : list event -> event -> result response.
Variable py_float : string -> result Q.
Variable dumps : pyval -> string.
Variable netloc : string -> result string.

(** X21.  For a collection whose pages are served to the end, the body the
    entities route streams is the JSON array of the serialized entities of
    all pages, in page order. *)
Theorem entities_route_streams_all_pages (path : string) (posted : pyval)
  (args : args) (pages : list (string * list pyval)) (st st' : state) :
  page_chain config net py_float args st pages st' ->
  hd_error (map fst pages) = Some (graph_url (self st) ++ path) ->
  forall fuel, (length pages <= fuel)%nat ->
    exists body,
      Routes.get config net py_float dumps fuel "GET" path posted args st
      = Some (body, st')
      /\ emitted body
         = "[" ++ join "," (map dumps (concat (map snd pages))) ++ "]"
      /\ gen_end body = None.
Proof.
  intros Hchain Hfirst fuel Hfuel.
  destruct (chain_walk _ _ _ _ _ _ _ Hchain fuel Hfuel)
    as (url & ents & rest & -> & Hrun).
  simpl in Hfirst. injection Hfirst as ->.
  unfold Routes.get, get_paged_entities, __get_all_paged_entities. simpl String.eqb.
  cbv iota. rewrite Hrun. eexists. split; [reflexivity|]. split.
  - apply emitted_returns.
  - rewrite stream_json_returns. now rewrite gen_end_app.
Qed.

(** X22.  When the turn for a page fails, the body the entities route has
    streamed is cut short: the opening bracket and the serialized entities
    of the earlier pages, comma-separated, without a closing bracket, ended
    by the exception of the turn. *)
Theorem entities_route_truncates_on_failure (path : string) (posted : pyval)
  (args : args) (pages : list (string * list pyval)) (nxt : string)
  (st st' st2 : state) (e : exn) :
  page_prefix config net py_float args st (graph_url (self st) ++ path)
    pages nxt st' ->
  fetch_page config net py_float args (PStr nxt) st' = (Raise e, st2) ->
  forall fuel, (length pages < fuel)%nat ->
    exists body,
      Routes.get config net py_float dumps fuel "GET" path posted args st
      = Some (body, st2)
      /\ emitted body = "[" ++ join "," (map dumps (concat (map snd pages)))
      /\ gen_end body = Some e.
Proof.
  intros Hprefix Hturn fuel Hfuel.
  unfold Routes.get, get_paged_entities, __get_all_paged_entities. simpl String.eqb.
  cbv iota.
  replace fuel with (length pages + S (fuel - S (length pages)))%nat by lia.
  rewrite (prefix_walk _ _ _ _ _ _ _ _ _ Hprefix).
  cbn [paged_loop]. rewrite Hturn.
  eexists. split; [reflexivity|]. apply emitted_raises.
Qed.

(** X23.  On a POST the JSON body of the request takes the place of the
    path of the url: a string is fetched as the path, and anything else
    makes the stream end with a [TypeError] right after the opening
    bracket, with nothing sent. *)
Theorem entities_route_post_body (fuel : nat) (path : string) (posted : pyval)
  (args : args) (st : state) :
  (forall p, posted = PStr p ->
     Routes.get config net py_float dumps fuel "POST" path posted args st
     = Routes.get config net py_float dumps fuel "GET" p PNone args st)
  /\ ((forall p, posted <> PStr p) ->
      Routes.get config net py_float dumps fuel "POST" path posted args st
      = Some (GYield "[" (GRaise TypeError), st)).
Proof.
  split.
  - intros p ->. reflexivity.
  - intros Hne. unfold Routes.get. simpl String.eqb. cbv iota.
    destruct posted; try reflexivity. now elim (Hne s).
Qed.

(** The file route on a path with at least three segments. *)
Lemma file_route_unfold (path host su : string) (st : state) :
  sharepoint_url config = Some su ->
  su <> EmptyString ->
  netloc su = Ok host ->
  (2 <= count_char "/" path)%nat ->
  Routes.get_file config net netloc path st
  = match get_file config net
            (join "/" (skipn 2 (split "/" path)))
            (host ++ ":/" ++ join "/" (firstn 2 (split "/" path))) st with
    | (Ok (Some bytes), st') =>
        (Ok (if String.eqb bytes EmptyString then Abort 500 else Reply 200 bytes),
         st')
    | (Ok None, st') => (Ok (Abort 500), st')
    | (Raise e, st') => (Raise e, st')
    end.
Proof.
  intros Hsu Hne Hhost Hcount. unfold Routes.get_file. rewrite Hsu.
  apply String.eqb_neq in Hne. rewrite Hne.
  unfold bind at 1, lift at 1. rewrite Hhost. cbv beta iota zeta.
  rewrite split_length.
  assert (Hlt : (S (count_char "/" path) <? 3)%nat = false)
    by (apply Nat.ltb_ge; lia).
  rewrite Hlt. unfold bind.
  destruct (get_file config net _ _ st) as [[[bytes|]|e] st']; try reflexivity.
  now destruct (String.eqb bytes EmptyString).
Qed.

(** X24.  With the SharePoint url configured, the file route answers 400
    exactly for the paths with fewer than two slashes, and then nothing is
    sent. *)
Theorem file_route_400_iff (path host su : string) (st : state) :
  sharepoint_url config = Some su ->
  su <> EmptyString ->
  netloc su = Ok host ->
  (fst (Routes.get_file config net netloc path st) = Ok (Abort 400)
   <-> (count_char "/" path < 2)%nat)
  /\ ((count_char "/" path < 2)%nat ->
      Routes.get_file config net netloc path st = (Ok (Abort 400), st)).
Proof.
  intros Hsu Hne Hhost.
  assert (Hshort : (count_char "/" path < 2)%nat ->
                   Routes.get_file config net netloc path st = (Ok (Abort 400), st)).
  { intros Hlt. unfold Routes.get_file. rewrite Hsu.
    pose proof Hne as Hne'. apply String.eqb_neq in Hne'. rewrite Hne'.
    unfold bind at 1, lift at 1. rewrite Hhost. cbv beta iota zeta.
    rewrite split_length.
    assert (H3 : (S (count_char "/" path) <? 3)%nat = true)
      by (apply Nat.ltb_lt; lia).
    now rewrite H3. }
  split; [|exact Hshort]. split.
  - intros H400.
    destruct (Nat.lt_ge_cases (count_char "/" path) 2) as [Hlt|Hge]; [exact Hlt|].
    rewrite (file_route_unfold path host su st Hsu Hne Hhost Hge) in H400.
    destruct (get_file config net _ _ st) as [[[bytes|]|e] st'];
      simpl in H400; try discriminate.
    destruct (String.eqb bytes EmptyString); discriminate.
  - intros Hlt. now rewrite (Hshort Hlt).
Qed.

(** X25.  For a path [a/b/rest] the file route looks the file [rest] up on
    the site [<host>:/a/b], where [<host>] is the network location of the
    configured SharePoint url, and its answer is 200 with the bytes when
    [get_file] returns bytes that are not empty, 500 when it returns
    [None] or no bytes. *)
Theorem file_route_splits_site_and_path (a b rest host su : string) (st : state) :
  sharepoint_url config = Some su ->
  su <> EmptyString ->
  netloc su = Ok host ->
  count_char "/" a = O ->
  count_char "/" b = O ->
  Routes.get_file config net netloc (a ++ "/" ++ b ++ "/" ++ rest) st
  = match get_file config net rest (host ++ ":/" ++ a ++ "/" ++ b) st with
    | (Ok (Some bytes), st') =>
        (Ok (if String.eqb bytes EmptyString then Abort 500 else Reply 200 bytes),
         st')
    | (Ok None, st') => (Ok (Abort 500), st')
    | (Raise e, st') => (Raise e, st')
    end.
Proof.
  intros Hsu Hne Hhost Ha Hb.
  assert (Hsplit : split "/" (a ++ "/" ++ b ++ "/" ++ rest)
                   = a :: b :: split "/" rest).
  { change (a ++ "/" ++ b ++ "/" ++ rest)
      with (a ++ String "/" (b ++ String "/" rest)).
    now rewrite (split_app_sep "/" a _ Ha), (split_app_sep "/" b _ Hb). }
  assert (Hcount : (2 <= count_char "/" (a ++ "/" ++ b ++ "/" ++ rest))%nat).
  { pose proof (split_length "/" (a ++ "/" ++ b ++ "/" ++ rest)) as Hlen.
    rewrite Hsplit in Hlen. simpl length in Hlen.
    pose proof (split_not_nil "/" rest).
    destruct (split "/" rest); [congruence|]. simpl in Hlen |- *. lia. }
  rewrite (file_route_unfold _ host su st Hsu Hne Hhost Hcount), Hsplit.
  cbn [firstn skipn]. now rewrite join_split_inv.
Qed.

(** X26.  The file route never answers 200 with an empty body: its 200 is
    always the bytes, not empty, that [get_file] returned for some file of
    some site; a file of no bytes is answered with 500. *)
Theorem file_route_200_has_bytes (path : string) (st st' : state) (body : string) :
  Routes.get_file config net netloc path st = (Ok (Reply 200 body), st') ->
  body <> EmptyString
  /\ exists rel site, get_file config net rel site st = (Ok (Some body), st').
Proof.
  unfold Routes.get_file.
  destruct (sharepoint_url config) as [su|]; [|unfold ret; discriminate].
  destruct (String.eqb su EmptyString); [unfold ret; discriminate|].
  unfold bind at 1, lift at 1.
  destruct (netloc su) as [host|e]; [|discriminate].
  cbv beta iota zeta.
  destruct (length (split "/" path) <? 3)%nat; [unfold ret; discriminate|].
  unfold bind.
  match goal with
  | |- context [get_file config net ?rel ?site st] =>
      destruct (get_file config net rel site st) as [[[bytes|]|e] s1] eqn:Hget;
      [|unfold ret; discriminate|discriminate];
      destruct (String.eqb_spec bytes EmptyString) as [->|Hne]; simpl;
      [unfold ret; discriminate|];
      unfold ret; intros H; injection H as <- <-;
      split; [assumption | now exists rel, site]
  end.
Qed.

(** X30.  The site route iterates over whatever JSON value was posted: a
    value that cannot be iterated (null, a number, a boolean) ends the
    stream with a [TypeError] right after the opening bracket, a JSON
    object that is not empty is walked key by key and ends it with the
    [AttributeError] of [set_group_id] on a string, and an empty array or
    object gives [[]]; in none of these cases is anything requested. *)
Theorem site_route_on_other_bodies (posted : pyval) (st : state) :
  (forall e, py_iter posted = Raise e ->
     Routes.getsite config net dumps posted st
     = (GYield "[" (GRaise e), st))
  /\ (forall k v kvs, posted = PDict ((k, v) :: kvs) ->
        Routes.getsite config net dumps posted st
        = (GYield "[" (GRaise AttributeError), st))
  /\ (posted = PList [] \/ posted = PDict [] ->
      Routes.getsite config net dumps posted st
      = (GYield "[" (GYield "]" GReturn), st)).
Proof.
  split; [|split].
  - intros e He. unfold Routes.getsite. now rewrite He.
  - intros k v kvs ->. reflexivity.
  - intros [->| ->]; reflexivity.
Qed.

End RouteFacts.

(** ** Start-up *)

Lemma attr_setattr_same (o : attrs) (name : string) (v : option string) :
  attr (setattr o name v) name = Some v.
Proof.
  induction o as [|[n w] o IH]; simpl.
  - now rewrite String.eqb_refl.
  - destruct (String.eqb name n) eqn:Hn; simpl.
    + now rewrite String.eqb_refl.
    + now rewrite Hn.
Qed.

Lemma attr_setattr_other (o : attrs) (name other : string) (v : option string) :
  String.eqb other name = false ->
  attr (setattr o name v) other = attr o other.
Proof.
  intros Hne. induction o as [|[n w] o IH]; simpl.
  - now rewrite Hne.
  - destruct (String.eqb name n) eqn:Hn; simpl.
    + apply String.eqb_eq in Hn. subst n. now rewrite Hne.
    + now rewrite IH.
Qed.

Section StartupFacts.
Variable getenv : string -> option string.

Lemma load_required_missing (vars : list string) :
  forall o missing,
    snd (load_required getenv vars o missing)
    = (missing ++ filter (fun v => unset (getenv v)) vars)%list.
Proof.
  induction vars as [|v vars IH]; intros o missing; simpl.
  - now rewrite app_nil_r.
  - rewrite IH. destruct (unset (getenv v)); [|reflexivity].
    now rewrite <- app_assoc.
Qed.

Lemma load_required_attr (vars : list string) (name : string) :
  forall o missing,
    attr (fst (load_required getenv vars o missing)) name
    = if existsb (String.eqb name) vars then Some (getenv name) else attr o name.
Proof.
  induction vars as [|v vars IH]; intros o missing; simpl; [reflexivity|].
  rewrite IH. destruct (existsb (String.eqb name) vars).
  - now rewrite orb_true_r.
  - rewrite orb_false_r. destruct (String.eqb name v) eqn:Hv.
    + apply String.eqb_eq in Hv. subst v. apply attr_setattr_same.
    + now apply attr_setattr_other.
Qed.

Lemma load_optional_attr (vars : list string) (name : string) :
  forall o,
    attr (load_optional getenv vars o) name
    = if existsb (String.eqb name) vars && negb (unset (getenv name))
      then Some (getenv name) else attr o name.
Proof.
  induction vars as [|v vars IH]; intros o; simpl; [reflexivity|].
  rewrite IH. destruct (String.eqb name v) eqn:Hv; simpl.
  - apply String.eqb_eq in Hv. subst v.
    destruct (unset (getenv name)) eqn:Hu; simpl.
    + now rewrite andb_false_r.
    + rewrite andb_true_r.
      destruct (existsb (String.eqb name) vars); [reflexivity|].
      apply attr_setattr_same.
  - destruct (existsb (String.eqb name) vars && negb (unset (getenv name)));
      [reflexivity|].
    destruct (unset (getenv v)); [reflexivity|].
    now apply attr_setattr_other.
Qed.

(** The attributes of the configuration object once both loops ran. *)
Lemma loaded_attr (name : string) :
  attr (load_optional getenv optional_env_vars
          (fst (load_required getenv required_env_vars [] []))) name
  = if existsb (String.eqb name) optional_env_vars && negb (unset (getenv name))
    then Some (getenv name)
    else if existsb (String.eqb name) required_env_vars
         then Some (getenv name) else None.
Proof. now rewrite load_optional_attr, load_required_attr. Qed.

Lemma startup_cases :
  startup getenv
  = if negb (length (filter (fun v => unset (getenv v)) required_env_vars) =? 0)%nat
    then Exit 1 (filter (fun v => unset (getenv v)) required_env_vars)
    else Started
           (config_of
              (load_optional getenv optional_env_vars
                 (fst (load_required getenv required_env_vars [] [])))).
Proof.
  unfold startup.
  pose proof (load_required_missing required_env_vars [] []) as Hm.
  destruct (load_required getenv required_env_vars [] []) as [o missing].
  simpl in Hm. now rewrite Hm.
Qed.

(** X27.  The service starts exactly when every required setting has a
    value that is not empty; otherwise the process exits with code 1, and
    the list it has handed to [logger.error] just before holds, in the
    order of their declaration, the names of all required settings that
    are unset or empty. *)
Theorem startup_reports_all_missing :
  match startup getenv with
  | Exit code missing =>
      code = 1
      /\ missing = filter (fun v => unset (getenv v)) required_env_vars
      /\ missing <> []
  | Started _ =>
      forall v, In v required_env_vars ->
                exists s, getenv v = Some s /\ s <> EmptyString
  end.
Proof.
  rewrite startup_cases.
  destruct (filter (fun v => unset (getenv v)) required_env_vars)
    as [|m ms] eqn:Hf; simpl.
  - intros v Hin.
    assert (Hv : unset (getenv v) = false).
    { destruct (unset (getenv v)) eqn:Hu; [|reflexivity].
      assert (Hin' : In v (filter (fun v => unset (getenv v)) required_env_vars))
        by (apply filter_In; now split).
      rewrite Hf in Hin'. contradiction. }
    unfold unset in Hv. destruct (getenv v) as [s|]; [|discriminate].
    exists s. split; [reflexivity|]. now apply String.eqb_neq.
  - repeat split. discriminate.
Qed.

Lemma started_fields (cfg : AppConfig) :
  startup getenv = Started cfg ->
  (forall v, In v required_env_vars -> unset (getenv v) = false)
  /\ cfg = config_of
             (load_optional getenv optional_env_vars
                (fst (load_required getenv required_env_vars [] []))).
Proof.
  rewrite startup_cases.
  destruct (filter (fun v => unset (getenv v)) required_env_vars)
    as [|m ms] eqn:Hf; simpl; [|discriminate].
  intros H. injection H as <-. split; [|reflexivity].
  intros v Hin. destruct (unset (getenv v)) eqn:Hu; [|reflexivity].
  assert (Hin' : In v (filter (fun v => unset (getenv v)) required_env_vars))
    by (apply filter_In; now split).
  rewrite Hf in Hin'. contradiction.
Qed.

(** X28.  In the configuration of a service that started, each required
    setting is the value of its environment variable, which is not empty,
    and each optional setting is the value of its variable when that is
    set and not empty, and absent otherwise: no setting is ever an empty
    string. *)
Theorem startup_config_values (cfg : AppConfig) :
  startup getenv = Started cfg ->
  (forall name field,
      In (name, field)
        [("client_id", client_id cfg); ("client_secret", client_secret cfg);
         ("grant_type", grant_type cfg); ("resource", resource cfg);
         ("entities_path", entities_path cfg); ("next_page", next_page cfg);
         ("token_url", token_url cfg)] ->
      getenv name = Some field /\ field <> EmptyString)
  /\ (forall name field,
         In (name, field)
           [("log_level", log_level cfg); ("base_url", base_url cfg);
            ("sleep", sleep cfg); ("port", port cfg);
            ("sharepoint_url", sharepoint_url cfg)] ->
         field = (if unset (getenv name) then None else getenv name)
         /\ field <> Some EmptyString).
Proof.
  intros Hstart. destruct (started_fields cfg Hstart) as (Hreq & ->). split.
  - intros name field Hin.
    assert (Hname : In name required_env_vars
                    /\ field = match getenv name with
                               | Some s => s
                               | None => EmptyString
                               end).
    { simpl in Hin.
      repeat (destruct Hin as [Hin|Hin];
              [injection Hin as <- <-; split;
               [simpl; tauto
               |unfold config_of, required_attr; simpl;
                rewrite loaded_attr; simpl; now destruct (getenv _)]
              |]).
      contradiction. }
    destruct Hname as (Hin' & ->). specialize (Hreq name Hin').
    unfold unset in Hreq. destruct (getenv name) as [s|]; [|discriminate].
    split; [reflexivity|]. now apply String.eqb_neq.
  - intros name field Hin.
    assert (Hname : field = (if unset (getenv name) then None else getenv name)).
    { simpl in Hin.
      repeat (destruct Hin as [Hin|Hin];
              [injection Hin as <- <-;
               unfold config_of, optional_attr; simpl;
               rewrite loaded_attr; simpl;
               now destruct (unset (getenv _))
              |]).
      contradiction. }
    split; [exact Hname|]. rewrite Hname. unfold unset.
    destruct (getenv name) as [s|]; [|discriminate].
    destruct (String.eqb_spec s EmptyString) as [->|Hne]; [discriminate|].
    congruence.
Qed.

(** X29.  The [Graph] of a service that started talks to the url given by
    [base_url] when that variable is set and not empty, and to
    [https://graph.microsoft.com/v1.0/] otherwise; it has no session and
    no credential yet. *)
Theorem graph_init_base_url (cfg : AppConfig) :
  startup getenv = Started cfg ->
  graph_url (Graph_init cfg)
  = match getenv "base_url" with
    | Some u => if String.eqb u EmptyString
                then "https://graph.microsoft.com/v1.0/" else u
    | None => "https://graph.microsoft.com/v1.0/"
    end
  /\ session (Graph_init cfg) = false
  /\ auth_header (Graph_init cfg) = None.
Proof.
  intros Hstart. destruct (started_fields cfg Hstart) as (_ & ->).
  repeat split. unfold Graph_init, config_of, optional_attr. simpl.
  rewrite loaded_attr. simpl. unfold unset.
  destruct (getenv "base_url") as [u|]; [|reflexivity].
  destruct (String.eqb u EmptyString) eqn:Hu; simpl; [reflexivity|].
  now rewrite Hu.
Qed.

End StartupFacts.

(** * Sample runs of the further properties *)

Lemma ex_pages_chain :
  page_chain ex_config ex_two_pages ex_float ex_args ex_ready ex_pages ex_walk_end.
Proof.
  unfold ex_pages. eapply chain_next; [|eapply chain_last].
  - unfold served. eexists _, _, _. repeat split; cbv; reflexivity.
  - unfold served. eexists _, _, _. repeat split; cbv; reflexivity.
Qed.


Lemma id_key_iff_witness : id_key "odata:group:id" = true.
Proof.
  apply (proj2 (id_key_iff "odata:group:id")). right. now exists "odata:group".
Defined.

Lemma get_token_failure_keeps_credential_witness :
  let net := scripted [Ok ex_denied] in
  self (snd (get_token ex_config net ex_ready)) = self ex_ready
  /\ trace (snd (get_token ex_config net ex_ready))
     = [EvPost (token_url ex_config) (payload ex_config)].
Proof.
  intros net.
  exact (get_token_failure_keeps_credential ex_config net ex_ready
           (snd (get_token ex_config net ex_ready))
           (RuntimeError "No active exception to reraise") eq_refl).
Defined.

Lemma get_token_success_iff_witness :
  get_token ex_config (scripted [Ok (ex_token "new")]) ex_ready
  = (Ok tt,
     {| self := {| session := true;
                   auth_header := Some [("Authorization", "Bearer new")];
                   graph_url := "https://graph.example/" |};
        trace := [EvPost (token_url ex_config) (payload ex_config)] |}).
Proof.
  apply (proj2 (get_token_success_iff ex_config
                  (scripted [Ok (ex_token "new")]) ex_ready _)).
  exists (ex_token "new").
  exists (PDict [("token_type", PStr "Bearer"); ("access_token", PStr "new")]).
  exists "new". repeat split.
Defined.

Lemma request_passes_other_statuses_witness :
  let net := scripted [Ok ex_not_found] in
  request ex_config net "GET" (PStr "https://graph.example/users") None ex_ready
  = (Ok ex_not_found,
     log_call
       (EvSend {| p_method := "GET"; p_url := PStr "https://graph.example/users";
                  p_headers := [("Authorization", "Bearer old")];
                  p_params := None |})
       ex_ready).
Proof.
  intros net.
  apply (request_passes_other_statuses ex_config net "GET"
           (PStr "https://graph.example/users") None ex_ready ex_ready
           ex_not_found).
  - reflexivity.
  - reflexivity.
  - discriminate.
Defined.

Lemma request_keeps_session_and_url_witness :
  let net := scripted [Ok ex_denied] in
  let run := request ex_config net "GET" (PStr "https://graph.example/users")
               None ex_fresh in
  session (self (snd run)) = true
  /\ graph_url (self (snd run)) = graph_url (self ex_fresh).
Proof.
  intros net run.
  exact (request_keeps_session_and_url ex_config net "GET"
           (PStr "https://graph.example/users") None ex_fresh
           (fst run) (snd run) eq_refl).
Defined.

Lemma failed_first_acquisition_sends_bare_witness :
  let net := scripted [Ok ex_denied] in
  let st1 := {| self := {| session := true; auth_header := None;
                           graph_url := "https://graph.example/" |};
                trace := [EvPost (token_url ex_config) (payload ex_config)] |} in
  request ex_config net "GET" (PStr "https://graph.example/users") None ex_fresh
  = (Raise (RuntimeError "No active exception to reraise"), st1)
  /\ session (self st1) = true
  /\ exists rest,
      trace (snd (request ex_config ex_two_pages "GET"
                    (PStr "https://graph.example/users") None st1))
      = (trace st1
         ++ EvSend {| p_method := "GET";
                      p_url := PStr "https://graph.example/users";
                      p_headers := []; p_params := None |} :: rest)%list.
Proof.
  intros net st1.
  destruct (failed_first_acquisition_sends_bare ex_config net "GET"
              (PStr "https://graph.example/users") None ex_fresh st1
              (RuntimeError "No active exception to reraise") eq_refl eq_refl)
    as (Hreq & _ & Hs & _ & Hnext).
  split; [exact Hreq|]. split; [exact Hs|].
  exact (Hnext ex_two_pages "GET" (PStr "https://graph.example/users") None
           (ex_page [ex_user "a"; ex_user "b"]
              (PStr "https://graph.example/users?$skiptoken=X"))
           eq_refl).
Defined.

Lemma first_use_acquires_then_sends_witness :
  let net := scripted [Ok (ex_token "t0"); Ok (ex_last_page [])] in
  exists tok rest,
    auth_header (self (snd (ensure_session ex_config net ex_fresh)))
    = Some [("Authorization", "Bearer " ++ tok)]
    /\ trace (snd (request ex_config net "GET"
                     (PStr "https://graph.example/users") None ex_fresh))
       = (trace ex_fresh
          ++ EvPost (token_url ex_config) (payload ex_config)
          :: EvSend {| p_method := "GET";
                       p_url := PStr "https://graph.example/users";
                       p_headers := [("Authorization", ("Bearer " ++ tok)%string)];
                       p_params := None |} :: rest)%list.
Proof.
  intros net.
  exact (first_use_acquires_then_sends ex_config net "GET"
           (PStr "https://graph.example/users") None ex_fresh
           (snd (ensure_session ex_config net ex_fresh)) (ex_last_page [])
           eq_refl eq_refl eq_refl).
Defined.

Lemma paged_failure_keeps_earlier_pages_witness :
  let net := scripted
               [Ok (ex_page [ex_user "a"]
                      (PStr "https://graph.example/users?$skiptoken=X"));
                Ok ex_not_found] in
  exists e st2,
    __get_all_paged_entities ex_config net ex_float 2 "users" ex_args ex_ready
    = Some (gen_app [ex_user "a"] (GRaise e), st2)
    /\ exn_class e = "AssertionError".
Proof.
  intros net. eexists _, _. split.
  - eapply (paged_failure_keeps_earlier_pages ex_config net ex_float ex_args
              "users" [("https://graph.example/users", [ex_user "a"])]
              "https://graph.example/users?$skiptoken=X" ex_ready).
    + eapply prefix_cons; [|apply prefix_nil].
      unfold served. eexists _, _, _. repeat split; cbv; reflexivity.
    + cbv. reflexivity.
    + simpl. lia.
  - reflexivity.
Defined.

Lemma fetch_page_rejects_error_status_witness :
  let net := scripted [Ok ex_not_found] in
  fst (fetch_page ex_config net ex_float ex_args
         (PStr "https://graph.example/users") ex_ready)
  = Raise (AssertionError
             "Unexpected response status code: 404 with response text itemNotFound").
Proof.
  intros net.
  rewrite (fetch_page_rejects_error_status ex_config net ex_float ex_args
             "https://graph.example/users" ex_ready ex_ready
             (snd (request ex_config net "GET"
                     (PStr "https://graph.example/users") (Some ex_args) ex_ready))
             ex_not_found eq_refl eq_refl eq_refl).
  reflexivity.
Defined.

Lemma fetch_page_without_collection_witness :
  let net := scripted [Ok (json_response (PDict [("items", PList [])]))] in
  fst (fetch_page ex_config net ex_float ex_args
         (PStr "https://graph.example/users") ex_ready)
  = Raise TypeError.
Proof.
  intros net.
  rewrite (fetch_page_without_collection ex_config net ex_float ex_args
             "https://graph.example/users" ex_ready ex_ready
             (snd (request ex_config net "GET"
                     (PStr "https://graph.example/users") (Some ex_args) ex_ready))
             (json_response (PDict [("items", PList [])]))
             [("items", PList [])] eq_refl eq_refl eq_refl eq_refl eq_refl).
  reflexivity.
Defined.




Lemma siteurls_carry_entity_id_witness :
  let net := scripted [Ok (json_response (PDict [("webUrl", PStr "https://sp/a")]));
                       Ok ex_not_found] in
  let run := __get_all_siteurls ex_config net [ex_user "g1"; ex_user "g2"] ex_ready in
  (length (gen_items (fst run)) <= 2)%nat
  /\ Forall (fun res =>
               exists entity gid,
                 In entity [ex_user "g1"; ex_user "g2"]
                 /\ set_group_id entity = Ok gid
                 /\ py_get res "_id" = Ok gid)
       (gen_items (fst run)).
Proof.
  intros net run.
  exact (siteurls_carry_entity_id ex_config net [ex_user "g1"; ex_user "g2"]
           ex_ready (fst run) (snd run) eq_refl).
Defined.

Lemma siteurls_skip_not_found_witness :
  let net := scripted [Ok ex_not_found;
                       Ok (json_response (PDict [("webUrl", PStr "https://sp/b")]))] in
  fst (__get_all_siteurls ex_config net [ex_user "g1"; ex_user "g2"] ex_ready)
  = GYield (PDict [("webUrl", PStr "https://sp/b"); ("_id", PStr "g2")]) GReturn.
Proof.
  intros net.
  rewrite (siteurls_skip_not_found ex_config net (ex_user "g1") [ex_user "g2"]
             "g1" ex_ready
             (snd (request ex_config net "GET"
                     (PStr "https://graph.example/groups/g1/sites/root") None
                     ex_ready))
             ex_not_found eq_refl eq_refl eq_refl).
  reflexivity.
Defined.

Lemma site_lookup_failure_stops_chain_witness :
  let net := scripted [Ok ex_not_found] in
  let st1 := snd (request ex_config net "GET"
                    (PStr "https://graph.example/sites/contoso:/teams/poc") None
                    ex_ready) in
  _get_site_documents_drive_url ex_config net "contoso:/teams/poc" ex_ready
  = (Ok PNone, st1)
  /\ _get_file_download_url ex_config net "reports/q1.csv" "contoso:/teams/poc"
       ex_ready
     = (Ok PNone, st1)
  /\ get_file ex_config net "reports/q1.csv" "contoso:/teams/poc" ex_ready
     = (Raise MissingSchema, log_call (EvGet PNone) st1).
Proof.
  intros net st1.
  apply (site_lookup_failure_stops_chain ex_config net "reports/q1.csv"
           "contoso:/teams/poc" ex_ready st1 ex_not_found eq_refl).
  left. reflexivity.
Defined.

Lemma get_file_none_only_from_download_witness :
  let net := scripted (ex_chain_answers ex_not_found) in
  exists url r st1,
    _get_file_download_url ex_config net "reports/q1.csv" "contoso:/teams/poc"
      ex_ready
    = (Ok url, st1)
    /\ url <> PNone
    /\ net (trace st1) (EvGet url) = Ok r
    /\ ok r = false
    /\ snd (get_file ex_config net "reports/q1.csv" "contoso:/teams/poc" ex_ready)
       = log_call (EvGet url) st1.
Proof.
  intros net.
  exact (get_file_none_only_from_download ex_config net "reports/q1.csv"
           "contoso:/teams/poc" ex_ready
           (snd (get_file ex_config net "reports/q1.csv" "contoso:/teams/poc"
                   ex_ready))
           eq_refl).
Defined.

Lemma get_file_resolves_and_downloads_witness :
  let net := scripted (ex_chain_answers ex_file) in
  let run := get_file ex_config net "reports/q1.csv" "contoso:/teams/poc" ex_ready in
  fst run = Ok (Some "col1,col2")
  /\ sent_urls (trace (snd run))
     = [PStr "https://graph.example/sites/contoso:/teams/poc";
        PStr "https://graph.example//sites/site-1/drive";
        PStr "https://graph.example//sites/site-1/drives/drive-9/root:/reports/q1.csv"]
  /\ last (trace (snd run)) (EvGet PNone) = EvGet (PStr "https://dl.example/f").
Proof.
  intros net run. subst run.
  set (st1 := snd (request ex_config net "GET"
                     (PStr "https://graph.example/sites/contoso:/teams/poc")
                     None ex_ready)).
  set (st2 := snd (request ex_config net "GET"
                     (PStr "https://graph.example//sites/site-1/drive") None st1)).
  set (st3 := snd (request ex_config net "GET"
                     (PStr "https://graph.example//sites/site-1/drives/drive-9/root:/reports/q1.csv")
                     None st2)).
  assert (Hne : "site-1" <> EmptyString) by discriminate.
  rewrite (get_file_resolves_and_downloads ex_config net "reports/q1.csv"
             "contoso:/teams/poc" "site-1" "drive-9" "https://dl.example/f"
             ex_ready st1 st2 st3
             (json_response (PDict [("id", PStr "site-1")]))
             (json_response (PDict [("id", PStr "drive-9")]))
             (json_response
                (PDict [("name", PStr "q1.csv");
                        ("@microsoft.graph.downloadUrl",
                         PStr "https://dl.example/f")]))
             ex_file
             (PDict [("id", PStr "site-1")])
             (PDict [("id", PStr "drive-9")])
             (PDict [("name", PStr "q1.csv");
                     ("@microsoft.graph.downloadUrl", PStr "https://dl.example/f")])
             eq_refl eq_refl eq_refl eq_refl Hne
             eq_refl eq_refl eq_refl eq_refl
             eq_refl eq_refl eq_refl eq_refl eq_refl).
  repeat split.
Defined.

Lemma entities_route_streams_all_pages_witness :
  exists body,
    Routes.get ex_config ex_two_pages ex_float ex_dumps 2 "GET" "users" PNone
      ex_args ex_ready
    = Some (body, ex_walk_end)
    /\ emitted body = "[<a>,<b>,<c>]"
    /\ gen_end body = None.
Proof.
  exact (entities_route_streams_all_pages ex_config ex_two_pages ex_float
           ex_dumps "users" PNone ex_args ex_pages ex_ready ex_walk_end
           ex_pages_chain eq_refl 2%nat (le_n _)).
Defined.

Lemma entities_route_truncates_on_failure_witness :
  let net := scripted
               [Ok (ex_page [ex_user "a"; ex_user "b"]
                      (PStr "https://graph.example/users?$skiptoken=X"));
                Ok ex_not_found] in
  exists body st2,
    Routes.get ex_config net ex_float ex_dumps 2 "GET" "users" PNone ex_args
      ex_ready
    = Some (body, st2)
    /\ emitted body = "[<a>,<b>"
    /\ exists msg, gen_end body = Some (AssertionError msg).
Proof.
  intros net.
  destruct (entities_route_truncates_on_failure ex_config net ex_float ex_dumps
              "users" PNone ex_args
              [("https://graph.example/users", [ex_user "a"; ex_user "b"])]
              "https://graph.example/users?$skiptoken=X" ex_ready
              (snd (fetch_page ex_config net ex_float ex_args
                      (PStr "https://graph.example/users") ex_ready))
              (snd (fetch_page ex_config net ex_float ex_args
                      (PStr "https://graph.example/users?$skiptoken=X")
                      (snd (fetch_page ex_config net ex_float ex_args
                              (PStr "https://graph.example/users") ex_ready))))
              (AssertionError
                 "Unexpected response status code: 404 with response text itemNotFound"))
    with (fuel := 2%nat) as (body & Hrun & Htext & Hend).
  - eapply prefix_cons; [|apply prefix_nil].
    unfold served. eexists _, _, _. repeat split; cbv; reflexivity.
  - cbv. reflexivity.
  - simpl. lia.
  - exists body. eexists. split; [exact Hrun|]. split; [exact Htext|].
    eexists. exact Hend.
Defined.

Lemma entities_route_post_body_witness :
  Routes.get ex_config ex_two_pages ex_float ex_dumps 2 "POST" "ignored"
    (PDict [("path", PStr "users")]) ex_args ex_ready
  = Some (GYield "[" (GRaise TypeError), ex_ready)
  /\ Routes.get ex_config ex_two_pages ex_float ex_dumps 2 "POST" "ignored"
       (PStr "users") ex_args ex_ready
     = Routes.get ex_config ex_two_pages ex_float ex_dumps 2 "GET" "users"
         PNone ex_args ex_ready.
Proof.
  split.
  - apply (proj2 (entities_route_post_body ex_config ex_two_pages ex_float
                    ex_dumps 2 "ignored" (PDict [("path", PStr "users")])
                    ex_args ex_ready)).
    discriminate.
  - apply (proj1 (entities_route_post_body ex_config ex_two_pages ex_float
                    ex_dumps 2 "ignored" (PStr "users") ex_args ex_ready)).
    reflexivity.
Defined.

Lemma file_route_400_iff_witness :
  Routes.get_file ex_config_sharepoint (scripted []) ex_netloc "a/b" ex_ready
  = (Ok (Abort 400), ex_ready).
Proof.
  assert (Hne : "https://contoso.sharepoint.com" <> EmptyString) by discriminate.
  apply (proj2 (file_route_400_iff ex_config_sharepoint (scripted []) ex_netloc
                  "a/b" "contoso.sharepoint.com" "https://contoso.sharepoint.com"
                  ex_ready eq_refl Hne eq_refl)).
  simpl. lia.
Defined.

Lemma file_route_splits_site_and_path_witness :
  let net := scripted (ex_chain_answers ex_file) in
  let run := Routes.get_file ex_config_sharepoint net ex_netloc "a/b/c/d.csv"
               ex_ready in
  fst run = Ok (Reply 200 "col1,col2")
  /\ hd_error (sent_urls (trace (snd run)))
     = Some (PStr "https://graph.example/sites/contoso.sharepoint.com:/a/b")
  /\ nth_error (sent_urls (trace (snd run))) 2
     = Some (PStr "https://graph.example//sites/site-1/drives/drive-9/root:/c/d.csv").
Proof.
  intros net run. subst run.
  assert (Hne : "https://contoso.sharepoint.com" <> EmptyString) by discriminate.
  change "a/b/c/d.csv" with ("a" ++ "/" ++ "b" ++ "/" ++ "c/d.csv").
  rewrite (file_route_splits_site_and_path ex_config_sharepoint net ex_netloc
             "a" "b" "c/d.csv" "contoso.sharepoint.com"
             "https://contoso.sharepoint.com" ex_ready
             eq_refl Hne eq_refl eq_refl eq_refl).
  repeat split.
Defined.

Lemma file_route_200_has_bytes_witness :
  let net := scripted (ex_chain_answers ex_file) in
  "col1,col2" <> EmptyString
  /\ exists rel site,
      get_file ex_config_sharepoint net rel site ex_ready
      = (Ok (Some "col1,col2"),
         snd (Routes.get_file ex_config_sharepoint net ex_netloc
                "teams/poc/reports/q1.csv" ex_ready)).
Proof.
  intros net.
  exact (file_route_200_has_bytes ex_config_sharepoint net ex_netloc
           "teams/poc/reports/q1.csv" ex_ready _ "col1,col2" eq_refl).
Defined.

(** With the secret empty and the token url unset, both are in the list
    and the process exits. *)
Example startup_sample_exit :
  startup ex_getenv = Exit 1 ["client_secret"; "token_url"].
Proof. reflexivity. Qed.

Lemma startup_config_values_witness :
  exists cfg,
    startup ex_getenv_full = Started cfg
    /\ (forall name field,
           In (name, field)
             [("client_id", client_id cfg); ("client_secret", client_secret cfg);
              ("grant_type", grant_type cfg); ("resource", resource cfg);
              ("entities_path", entities_path cfg); ("next_page", next_page cfg);
              ("token_url", token_url cfg)] ->
           ex_getenv_full name = Some field /\ field <> EmptyString)
    /\ sleep cfg = None
    /\ base_url cfg = Some "https://graph.example/".
Proof.
  eexists. split; [reflexivity|].
  destruct (startup_config_values ex_getenv_full _ eq_refl) as (Hreq & Hopt).
  split; [exact Hreq|]. split; reflexivity.
Defined.

Lemma graph_init_base_url_witness :
  exists cfg,
    startup ex_getenv_full = Started cfg
    /\ graph_url (Graph_init cfg) = "https://graph.example/"
    /\ session (Graph_init cfg) = false
    /\ auth_header (Graph_init cfg) = None.
Proof.
  eexists. split; [reflexivity|].
  exact (graph_init_base_url ex_getenv_full _ eq_refl).
Defined.

Lemma site_route_on_other_bodies_witness :
  Routes.getsite ex_config (scripted []) ex_dumps (PInt 7) ex_ready
  = (GYield "[" (GRaise TypeError), ex_ready)
  /\ Routes.getsite ex_config (scripted []) ex_dumps (ex_user "g1") ex_ready
     = (GYield "[" (GRaise AttributeError), ex_ready)
  /\ Routes.getsite ex_config (scripted []) ex_dumps (PList []) ex_ready
     = (GYield "[" (GYield "]" GReturn), ex_ready).
Proof.
  split; [|split].
  - apply (proj1 (site_route_on_other_bodies ex_config (scripted []) ex_dumps
                    (PInt 7) ex_ready)).
    reflexivity.
  - apply (proj1 (proj2 (site_route_on_other_bodies ex_config (scripted [])
                           ex_dumps (ex_user "g1") ex_ready))
             "id" (PStr "g1") []).
    reflexivity.
  - apply (proj2 (proj2 (site_route_on_other_bodies ex_config (scripted [])
                           ex_dumps (PList []) ex_ready))).
    now left.
Defined.
